(** * BisFetcher: link discovery and article extraction

    A shallow embedding of [bis_fetcher/fetcher/bis.py]: the two methods
    [_parse_page_links] and [_parse_article_text] (with its helper
    [_extract_text]) of class [BisFetcher], over a model of the document
    tree the methods query ([find], [find_all], [.text], [tag[key]]).

    Python exceptions are values of [exn]; a computation that may raise
    returns a [result].  The [try]/[except] blocks of the source are
    modelled by running the block to an [outcome] and then applying the
    handler.  The mutable list [links] and the logger are threaded as an
    explicit state. *)

From Stdlib Require Import ZArith Ascii String.
From stdpp Require Import base option list strings gmap.

Set Warnings "-register-all".

Local Open Scope string_scope.
Local Open Scope list_scope.
Local Open Scope Z_scope.

(** ** Exceptions and results *)

Inductive exn : Type :=
| TypeError            (* subscripting [None], as in [None["href"]] *)
| KeyError (key : string)  (* a tag without the attribute asked for *)
| AttributeError       (* a method called on [None] *)
| ValueError           (* [datetime.fromisoformat] on a bad string *)
| ZeroDivisionError    (* [article_no % 0] *)
| TransportError (msg : string).  (* anything raised by [self.request] *)

Inductive result (A : Type) : Type :=
| Ok (a : A)
| Raise (e : exn).
Arguments Ok {A} a.
Arguments Raise {A} e.

#[global] Instance result_ret : MRet result := λ A a, Ok a.

#[global] Instance result_bind : MBind result := λ A B k r,
  match r with
  | Ok a => k a
  | Raise e => Raise e
  end.

(** ** The document tree

    A parsed document is a tree of tags and strings.  A tag has a name, a
    dictionary of attributes and a list of children. *)

Inductive node : Type :=
| NavigableString (s : string)
| Tag (name : string) (attrs : gmap string string) (contents : list node).

Definition tag_attrs (n : node) : gmap string string :=
  match n with
  | NavigableString _ => ∅
  | Tag _ attrs _ => attrs
  end.

(** [n.text]: every string below [n], concatenated in document order. *)
Fixpoint get_text (n : node) : string :=
  match n with
  | NavigableString s => s
  | Tag _ _ contents => String.concat "" (map get_text contents)
  end.

(** [n.descendants]: the nodes strictly below [n], in document order. *)
Fixpoint descendants (n : node) : list node :=
  match n with
  | NavigableString _ => []
  | Tag _ _ contents =>
      (fix below (cs : list node) : list node :=
         match cs with
         | [] => []
         | c :: cs' => c :: descendants c ++ below cs'
         end) contents
  end.

(** [tag[key]]: the attribute's value, [KeyError] when the tag has none. *)
Definition getitem (n : node) (key : string) : result string :=
  match tag_attrs n !! key with
  | Some v => Ok v
  | None => Raise (KeyError key)
  end.

(** [None[key]] is a [TypeError]. *)
Definition getitem_opt (o : option node) (key : string) : result string :=
  match o with
  | Some n => getitem n key
  | None => Raise TypeError
  end.

(** A method looked up on [None] is an [AttributeError]. *)
Definition receiver (o : option node) : result node :=
  match o with
  | Some n => Ok n
  | None => Raise AttributeError
  end.

(** *** Selectors *)

Definition is_space (c : ascii) : bool :=
  match c with
  | " "%char | "009"%char | "010"%char | "011"%char | "012"%char | "013"%char => true
  | _ => false
  end.

(** Whitespace-separated tokens of an attribute value. *)
Fixpoint tokens_from (cur : string) (s : string) : list string :=
  match s with
  | EmptyString => if String.eqb cur "" then [] else [cur]
  | String c s' =>
      if is_space c
      then (if String.eqb cur "" then tokens_from "" s' else cur :: tokens_from "" s')
      else tokens_from (cur +:+ String c "") s'
  end.

Definition tokens (s : string) : list string := tokens_from "" s.

(** [class] (on every tag) and [rel] (on [a] and [link]) hold a list of
    values: a filter value matches when it is one of the tokens, or the
    whole attribute. *)
Definition multi_valued (name key : string) : bool :=
  String.eqb key "class"
  || (String.eqb key "rel" && (String.eqb name "a" || String.eqb name "link")).

Definition attr_matches (name : string) (attrs : gmap string string)
    (key wanted : string) : bool :=
  match attrs !! key with
  | None => false
  | Some v =>
      String.eqb v wanted
      || (multi_valued name key && existsb (String.eqb wanted) (tokens v))
  end.

(** A node matches [(name, attrs)] when it is a tag of that name and every
    entry of the filter matches the tag's attribute of that key. *)
Definition matches (name : string) (flt : gmap string string) (n : node) : bool :=
  match n with
  | NavigableString _ => false
  | Tag nm attrs _ =>
      String.eqb nm name
      && forallb (λ kv, attr_matches nm attrs kv.1 kv.2) (map_to_list flt)
  end.

(** [n.find_all(name, attrs)] and [n.find(name, attrs)]. *)
Definition find_all (name : string) (flt : gmap string string) (n : node) : list node :=
  filter (λ d, matches name flt d = true) (descendants n).

Definition find (name : string) (flt : gmap string string) (n : node) : option node :=
  head (find_all name flt n).

(** ** Records of the program *)

(** What [self.request] returns: [response.status_code], [response.text]. *)
Record Response : Type := { status_code : Z; response_text : string }.

(** The dictionary [{"title": title, "url": url}]. *)
Record Link : Type := { title : string; url : string }.

(** The dictionary [{"categories": ..., "time": ..., "text": ...}]. *)
Record Article : Type :=
  { categories : list string; time : string; text : string }.

(** The configuration fields of class [BisFetcher]. *)
Record BisFetcher : Type := {
  base_url : string;
  search_url : string;
  link_locator : string * string;
  link_container_name : string;
  link_container_attrs : gmap string string;
  link_find_all_name : string;
  link_find_all_attrs : gmap string string;
  lint_article_name : string;
  lint_article_attrs : gmap string string
}.

(** The values the class body gives them.  [By.CSS_SELECTOR] comes from
    the base module and is taken as a parameter. *)
Definition bis (CSS_SELECTOR : string) : BisFetcher := {|
  base_url := "https://www.bis.org";
  search_url :=
    "https://www.bis.org/cbspeeches/index.htm?m=256&cbspeeches_page={page}";
  link_locator :=
    (CSS_SELECTOR,
     "#cbspeeches_list > div > table > tbody > tr:nth-child(10) > td:nth-child(2) > div > div.title");
  link_container_name := "table";
  link_container_attrs := {[ "class" := "documentList" ]};
  link_find_all_name := "tr";
  link_find_all_attrs := ∅;
  lint_article_name := "div";
  lint_article_attrs := {[ "class" := "title" ]}
|}.

(** ** Logging and the state of a call *)

Inductive log_arg : Type :=
| ArgStr (s : string)
| ArgInt (n : Z)
| ArgExn (e : exn).

Inductive level : Type := INFO | ERROR.

(** One call [logger.info(msg, *args)] or [logger.error(msg, *args)]. *)
Record log_record : Type :=
  { lvl : level; msg : log_arg; args : list log_arg }.

(** The local list [links] and the records logged so far. *)
Record state : Type := { links : list Link; log : list log_record }.

(** A block of statements: it runs from a state to a state, and either
    completes with a value or raises. *)
Definition prog (A : Type) : Type := state → state * result A.

#[global] Instance prog_ret : MRet prog := λ A a st, (st, Ok a).

#[global] Instance prog_bind : MBind prog := λ A B k m st,
  match m st with
  | (st', Ok a) => k a st'
  | (st', Raise e) => (st', Raise e)
  end.

(** An expression that may raise, evaluated inside a block. *)
Definition lift {A : Type} (r : result A) : prog A := λ st, (st, r).

Definition logger_info (m : string) (a : list log_arg) : prog unit :=
  λ st, ({| links := links st;
            log := log st ++ [{| lvl := INFO; msg := ArgStr m; args := a |}] |},
         Ok tt).

Definition logger_error (m : log_arg) (a : list log_arg) : prog unit :=
  λ st, ({| links := links st;
            log := log st ++ [{| lvl := ERROR; msg := m; args := a |}] |},
         Ok tt).

(** [links.append(link)] *)
Definition links_append (link : Link) : prog unit :=
  λ st, ({| links := links st ++ [link]; log := log st |}, Ok tt).

(** [for i, x in enumerate(xs): body], counting from [i]. *)
Fixpoint for_enumerate {A : Type} (body : Z → A → prog unit)
    (i : Z) (xs : list A) : prog unit :=
  match xs with
  | [] => mret tt
  | x :: xs' => body i x;; for_enumerate body (i + 1) xs'
  end.

(** How a [try] block ends when it does not raise: it falls through to
    the statement after the [try], or it executes a [return]. *)
Inductive completion (A : Type) : Type :=
| FallThrough
| Return (v : A).
Arguments FallThrough {A}.
Arguments Return {A} v.

(** ** Python operators used by the methods *)

(** [a % b] on integers: the sign follows the divisor, as [Z.modulo]. *)
Definition py_mod (a b : Z) : result Z :=
  if b =? 0 then Raise ZeroDivisionError else Ok (a mod b).

Definition newline : string := String "010"%char "".

(** [sep.join(parts)] *)
Definition join (sep : string) (parts : list string) : string :=
  String.concat sep parts.

(** ** The methods of [BisFetcher] *)

Section Methods.
(** The collaborators: the transport [self.request(url, locator=...)] of
    the base class, the [html.parser] tree builder, and [datetime] with
    [fromisoformat] ([None] stands for its [ValueError]) and
    [isoformat]. *)
Context {datetime : Type}.
Variable request : string → option (string * string) → result Response.
Variable BeautifulSoup : string → node.
Variable fromisoformat : string → option datetime.
Variable isoformat : datetime → string.
Variable self : BisFetcher.

(** The body of the [for] loop of [_parse_page_links]. *)
Definition article_body (print_every : Z) (verbose : bool)
    (article_no : Z) (article : node) : prog unit :=
  let title_div :=
    find (lint_article_name self) (lint_article_attrs self) article in
  match title_div with
  | None =>
      logger_info "No title found for article %s" [ArgInt article_no]
      (* continue *)
  | Some title_div =>
      let title := get_text title_div in
      href ← lift (getitem_opt (find "a" ∅ article) "href");
      let url := base_url self +:+ href in
      shown ← lift (if verbose
                    then r ← py_mod article_no print_every; mret (r =? 0)
                    else mret false);
      (if shown : bool
       then logger_info "Title: %s" [ArgStr title];;
            logger_info "URL: %s" [ArgStr url]
       else mret tt);;
      let link := {| title := title; url := url |} in
      links_append link
  end.

(** The [try] block of [_parse_page_links]. *)
Definition parse_page_links_try (page_url : string) (print_every : Z)
    (verbose : bool) : prog (completion (option (list Link))) :=
  response ← lift (request page_url (Some (link_locator self)));
  if status_code response =? 404
  then
    logger_info "Page [%s] does not exist, stopping..." [ArgStr page_url];;
    mret (Return None)
  else
    let soup := BeautifulSoup (response_text response) in
    let section :=
      find (link_container_name self) (link_container_attrs self) soup in
    articles ← lift (section ← receiver section;
                     mret (find_all (link_find_all_name self)
                                    (link_find_all_attrs self) section));
    for_enumerate (article_body print_every verbose) 0 articles;;
    mret FallThrough.

(** [_parse_page_links]: [links = []], the [try] block, the [except]
    handler and the final [return links].  The result is the final state
    together with the value returned. *)
Definition _parse_page_links_run (page_url : string) (print_every : Z)
    (verbose : bool) : state * option (list Link) :=
  match parse_page_links_try page_url print_every verbose
          {| links := []; log := [] |} with
  | (st, Ok (Return v)) => (st, v)
  | (st, Ok FallThrough) => (st, Some (links st))
  | (st, Raise e) =>
      let st' :=
        (logger_error (ArgStr "Error while fetching the page url: %s")
                      [ArgStr page_url];;
         logger_error (ArgExn e) []) st in
      (st'.1, Some (links st'.1))
  end.

(** The value [_parse_page_links] returns, and what it logs. *)
Definition _parse_page_links (page_url : string) (print_every : Z)
    (verbose : bool) : option (list Link) :=
  (_parse_page_links_run page_url print_every verbose).2.

Definition _parse_page_links_log (page_url : string) (print_every : Z)
    (verbose : bool) : list log_record :=
  log (_parse_page_links_run page_url print_every verbose).1.

(** [_extract_text] *)
Definition _extract_text (entry_content_div entry_meta_div : node)
    : result Article :=
  let p_tags := find_all "p" ∅ entry_content_div in
  let article_text := join newline (map get_text p_tags) in
  let entry_categories :=
    map get_text (find_all "a" {[ "rel" := "tag" ]} entry_meta_div) in
  entry_time_str ←
    getitem_opt (find "time" {[ "class" := "entry-time" ]} entry_meta_div)
                "datetime";
  entry_time ← match fromisoformat entry_time_str with
               | Some d => Ok d
               | None => Raise ValueError
               end;
  mret {| categories := entry_categories;
          time := isoformat entry_time;
          text := article_text |}.

(** The [try] block of [_parse_article_text].  A tag is truthy whatever
    its contents, so the test succeeds exactly when both were found. *)
Definition parse_article_text_try (url : string)
    : prog (completion (option Article)) :=
  response ← lift (request url None);
  let soup := BeautifulSoup (response_text response) in
  let entry_content_div := find "div" {[ "class" := "entry-content" ]} soup in
  let entry_meta_div := find "div" {[ "class" := "entry-meta" ]} soup in
  match entry_content_div, entry_meta_div with
  | Some entry_content_div, Some entry_meta_div =>
      r ← lift (_extract_text entry_content_div entry_meta_div);
      mret (Return (Some r))
  | _, _ => mret FallThrough
  end.

(** [_parse_article_text]: the [try] block, the handler, [return None]. *)
Definition _parse_article_text_run (url : string) : state * option Article :=
  match parse_article_text_try url {| links := []; log := [] |} with
  | (st, Ok (Return v)) => (st, v)
  | (st, Ok FallThrough) => (st, None)
  | (st, Raise e) =>
      let st' :=
        (logger_error (ArgStr "Error while scraping the article url: %s")
                      [ArgStr url];;
         logger_error (ArgExn e) []) st in
      (st'.1, None)
  end.

Definition _parse_article_text (url : string) : option Article :=
  (_parse_article_text_run url).2.

Definition _parse_article_text_log (url : string) : list log_record :=
  log (_parse_article_text_run url).1.

End Methods.

(** ** Sample documents

    Concrete listing pages and articles on which the methods are run. *)

Module Samples.

Definition fetcher : BisFetcher := bis "css selector".

Definition elem (name : string) (contents : list node) : node :=
  Tag name ∅ contents.

Definition anchor (href label : string) : node :=
  Tag "a" {[ "href" := href ]} [NavigableString label].

Definition title_div (contents : list node) : node :=
  Tag "div" {[ "class" := "title" ]} contents.

(** A row of the listing: a date cell and a title cell. *)
Definition row (date : string) (contents : list node) : node :=
  elem "tr" [elem "td" [NavigableString date]; elem "td" contents].

Definition listing_doc (rows : list node) : node :=
  Tag "[document]" ∅
    [elem "html" [elem "body"
       [Tag "table" {[ "class" := "documentList" ]} [elem "tbody" rows]]]].

Definition row_relative : node :=
  row "01 Jan 2023" [title_div [anchor "/review/r230101a.htm" "Opening remarks"]].

Definition row_absolute : node :=
  row "02 Jan 2023"
      [title_div [anchor "https://www.bis.org/review/r230102b.htm" "Closing remarks"]].

Definition row_untitled : node :=
  row "03 Jan 2023" [anchor "/review/r230103c.htm" "No title cell"].

Definition row_no_anchor : node :=
  row "04 Jan 2023" [title_div [NavigableString "Withdrawn"]].

Definition row_empty_title : node :=
  row "05 Jan 2023" [title_div [Tag "a" {[ "href" := "/review/r230105e.htm" ]} []]].

(** A transport that answers every URL with status [status], and a
    parser that builds [doc] from that answer. *)
Definition respond (status : Z) : string → option (string * string) → result Response :=
  λ page_url _, Ok {| status_code := status; response_text := page_url |}.

Definition refuse : string → option (string * string) → result Response :=
  λ _ _, Raise (TransportError "connection reset").

Definition parsed_as (doc : node) : string → node := λ _, doc.

Definition page_url : string :=
  "https://www.bis.org/cbspeeches/index.htm?m=256&cbspeeches_page=0".

(** Articles. *)
Definition para (s : string) : node :=
  elem "p" (if String.eqb s "" then [] else [NavigableString s]).

Definition tag_anchor (label : string) : node :=
  Tag "a" {[ "rel" := "tag"; "href" := "/tag" ]} [NavigableString label].

Definition entry_time (stamp : string) : node :=
  Tag "time" {[ "class" := "entry-time"; "datetime" := stamp ]}
      [NavigableString "1 January 2023"].

Definition entry_content (contents : list node) : node :=
  Tag "div" {[ "class" := "entry-content" ]} contents.

Definition entry_meta (contents : list node) : node :=
  Tag "div" {[ "class" := "entry-meta" ]} contents.

Definition article_doc (parts : list node) : node :=
  Tag "[document]" ∅ [elem "html" [elem "body" parts]].

Definition content_ABA : node := entry_content [para "A"; para ""; para "B"].

Definition meta_policy : node :=
  entry_meta [entry_time "2023-01-01T09:30:00";
              tag_anchor "Policy"; tag_anchor "Speech"; tag_anchor "Policy"].

Definition article_url : string := "https://www.bis.org/review/r230101a.htm".

(** A clock that reads timestamps of the shape [YYYY-MM-DDTHH:MM:SS] and
    prints them back unchanged. *)
Definition is_digit (c : ascii) : bool :=
  (48 <=? nat_of_ascii c)%nat && (nat_of_ascii c <=? 57)%nat.

Fixpoint shaped (pattern s : string) : bool :=
  match pattern, s with
  | EmptyString, EmptyString => true
  | String p pattern', String c s' =>
      (if Ascii.eqb p "d" then is_digit c else Ascii.eqb p c)
      && shaped pattern' s'
  | _, _ => false
  end.

Definition fromisoformat (s : string) : option string :=
  if shaped "dddd-dd-ddTdd:dd:dd" s then Some s else None.

Definition isoformat (d : string) : string := d.

End Samples.

(** ** What the loop does to one item, and to a list of items *)

Section Properties.
Context {datetime : Type}.
Variable request : string → option (string * string) → result Response.
Variable BeautifulSoup : string → node.
Variable fromisoformat : string → option datetime.
Variable isoformat : datetime → string.
Variable self : BisFetcher.

(** The item has a title sub-node. *)
Definition titled (article : node) : Prop :=
  is_Some (find (lint_article_name self) (lint_article_attrs self) article).

#[global] Instance titled_dec article : Decision (titled article).
Proof. unfold titled. apply _. Defined.

(** The record an item gives: the text of its title sub-node, and the
    base URL followed by the href of its first anchor. *)
Definition yields (article : node) (l : Link) : Prop :=
  ∃ title_div a href,
    find (lint_article_name self) (lint_article_attrs self) article = Some title_div
    ∧ find "a" ∅ article = Some a
    ∧ tag_attrs a !! "href" = Some href
    ∧ l = {| title := get_text title_div; url := base_url self +:+ href |}.

(** An item the loop gets past: it has no title sub-node, or it gives a
    record. *)
Definition passable (article : node) : Prop :=
  ¬ titled article ∨ ∃ l, yields article l.

(** The ways the loop body raises on a titled item. *)
Definition raises (print_every : Z) (verbose : bool) (article : node)
    (e : exn) : Prop :=
  getitem_opt (find "a" ∅ article) "href" = Raise e
  ∨ (∃ href, getitem_opt (find "a" ∅ article) "href" = Ok href)
    ∧ verbose = true ∧ print_every = 0 ∧ e = ZeroDivisionError.

(** The page was fetched, is not a 404, and its container holds
    [articles]. *)
Definition listing (page_url : string) (articles : list node) : Prop :=
  ∃ response section,
    request page_url (Some (link_locator self)) = Ok response
    ∧ status_code response ≠ 404
    ∧ find (link_container_name self) (link_container_attrs self)
           (BeautifulSoup (response_text response)) = Some section
    ∧ find_all (link_find_all_name self) (link_find_all_attrs self) section
      = articles.

(** The publication time of a metadata container, when its [time]
    element is there, carries [datetime], and the value parses. *)
Definition entry_time_of (entry_meta_div : node) : option datetime :=
  time_tag ← find "time" {[ "class" := "entry-time" ]} entry_meta_div;
  entry_time_str ← tag_attrs time_tag !! "datetime";
  fromisoformat entry_time_str.

(** The verbose check [article_no % print_every] cannot divide by zero. *)
Definition verbose_safe (print_every : Z) (verbose : bool) : Prop :=
  verbose = false ∨ print_every ≠ 0.

(** The item's first anchor carries an href. *)
Definition anchored (article : node) : Prop :=
  ∃ a href, find "a" ∅ article = Some a ∧ tag_attrs a !! "href" = Some href.

(** The state a call starts from. *)
Definition fresh : state := {| links := []; log := [] |}.

(** The two records the handler logs. *)
Definition page_error_log (page_url : string) (e : exn) : list log_record :=
  [ {| lvl := ERROR; msg := ArgStr "Error while fetching the page url: %s";
       args := [ArgStr page_url] |};
    {| lvl := ERROR; msg := ArgExn e; args := [] |} ].

(** The complete record of an article with publication time [d]. *)
Definition record_of (entry_content_div entry_meta_div : node) (d : datetime)
    : Article :=
  {| categories :=
       map get_text (find_all "a" {[ "rel" := "tag" ]} entry_meta_div);
     time := isoformat d;
     text := join newline (map get_text (find_all "p" ∅ entry_content_div)) |}.

Local Abbreviation body := (article_body self).

Lemma yields_titled article l : yields article l → titled article.
Proof. intros (t & _ & _ & Ht & _). unfold titled. by rewrite Ht. Qed.

Lemma yields_href article l :
  yields article l →
  ∃ href, getitem_opt (find "a" ∅ article) "href" = Ok href
          ∧ url l = base_url self +:+ href.
Proof.
  intros (t & a & href & _ & Ha & Hh & ->). exists href.
  unfold getitem_opt, getitem. by rewrite Ha, Hh.
Qed.

Lemma yields_not_raises pe v article l e :
  verbose_safe pe v → yields article l → ¬ raises pe v article e.
Proof.
  intros Hsafe Hy [Hr | (_ & Hv & Hpe & _)].
  - apply yields_href in Hy as (href & Hh & _). congruence.
  - destruct Hsafe; congruence.
Qed.

(** One turn of the loop: the item is skipped, or its record is
    appended, or the body raises and [links] is left as it was. *)
Lemma article_body_cases pe v i article st :
  (¬ titled article
   ∧ ∃ st', body pe v i article st = (st', Ok tt) ∧ links st' = links st)
  ∨ (∃ l st', yields article l
              ∧ body pe v i article st = (st', Ok tt)
              ∧ links st' = links st ++ [l])
  ∨ (titled article
     ∧ ∃ e, raises pe v article e ∧ body pe v i article st = (st, Raise e)).
Proof.
  unfold article_body, titled.
  destruct (find (lint_article_name self) (lint_article_attrs self) article)
    as [title_div|] eqn:Ht.
  2: { left. split; [by intros [? ?] |]. eexists. split; [reflexivity | done]. }
  right.
  destruct (getitem_opt (find "a" ∅ article) "href") as [href|e] eqn:Hh.
  2: { right. split; [done |]. exists e. split; [by left |].
       by unfold mbind, prog_bind, lift. }
  assert (Hy : yields article
                 {| title := get_text title_div; url := base_url self +:+ href |}).
  { unfold getitem_opt, getitem in Hh.
    destruct (find "a" ∅ article) as [a|] eqn:Ha; [|done].
    destruct (tag_attrs a !! "href") as [h|] eqn:Hk; [|done].
    exists title_div, a, h. by simplify_eq. }
  unfold mbind, prog_bind, lift.
  destruct v; simpl.
  - unfold py_mod. destruct (pe =? 0) eqn:Hpe; simpl.
    + right. split; [done |]. exists ZeroDivisionError. split; [|done].
      right. apply Z.eqb_eq in Hpe. eauto.
    + left. destruct (i `mod` pe =? 0); simpl; eauto.
  - left. eauto.
Qed.

(** The loop over a concatenation runs the first part, then the second
    from where the first stopped. *)
Lemma for_enumerate_app {A : Type} (f : Z → A → prog unit) xs ys :
  ∀ i st,
    for_enumerate f i (xs ++ ys) st
    = match for_enumerate f i xs st with
      | (st', Ok _) => for_enumerate f (i + Z.of_nat (length xs)) ys st'
      | (st', Raise e) => (st', Raise e)
      end.
Proof.
  induction xs as [|x xs IH]; intros i st; simpl.
  - unfold mret, prog_ret. by rewrite Z.add_0_r.
  - unfold mbind, prog_bind. destruct (f i x st) as [st1 [[]|e]]; [|done].
    rewrite IH. by replace (i + 1 + Z.of_nat (length xs))
                     with (i + Z.pos (Pos.of_succ_nat (length xs))) by lia.
Qed.

(** When every item is passable the loop completes, and [links] grows by
    the records of the titled items, in their order. *)
Lemma loop_passable pe v articles :
  verbose_safe pe v → Forall passable articles →
  ∀ i st, ∃ st' ls,
    for_enumerate (body pe v) i articles st = (st', Ok tt)
    ∧ links st' = links st ++ ls
    ∧ Forall2 yields (filter titled articles) ls.
Proof.
  intros Hsafe. induction 1 as [|article articles Hp _ IH]; intros i st.
  - exists st, []. simpl. rewrite app_nil_r. repeat split. constructor.
  - simpl. unfold mbind, prog_bind.
    destruct (article_body_cases pe v i article st)
      as [(Hnt & st1 & -> & Hl) | [(l & st1 & Hy & -> & Hl) | (Ht & e & Hr & _)]].
    + destruct (IH (i + 1) st1) as (st' & ls & -> & Hls & HF).
      exists st', ls. rewrite filter_cons_False by done.
      rewrite Hls, Hl. done.
    + destruct (IH (i + 1) st1) as (st' & ls & -> & Hls & HF).
      exists st', (l :: ls). rewrite filter_cons_True by eauto using yields_titled.
      rewrite Hls, Hl, <- app_assoc. repeat split. by constructor.
    + destruct Hp as [Hnt | (l & Hy)]; [done |].
      by destruct (yields_not_raises pe v article l e).
Qed.

(** Whatever the items are, the loop gets through a prefix [done] of
    them: [links] grows by the records of the titled items of [done],
    and the loop either completes ([done] is every item) or raises on
    the item that follows [done]. *)
Lemma loop_prefix pe v articles :
  ∀ i st st' r,
    for_enumerate (body pe v) i articles st = (st', r) →
    ∃ done ls,
      links st' = links st ++ ls
      ∧ Forall2 yields (filter titled done) ls
      ∧ match r with
        | Ok _ => done = articles
        | Raise e => ∃ bad rest, articles = done ++ bad :: rest
                                 ∧ titled bad ∧ raises pe v bad e
        end.
Proof.
  induction articles as [|article articles IH]; intros i st st' r; simpl.
  - unfold mret, prog_ret. intros [= <- <-]. exists [], [].
    rewrite app_nil_r. repeat split. constructor.
  - unfold mbind, prog_bind.
    destruct (article_body_cases pe v i article st)
      as [(Hnt & st1 & -> & Hl) | [(l & st1 & Hy & -> & Hl) | (Ht & e & Hr & ->)]].
    + intros Hrun. destruct (IH _ _ _ _ Hrun) as (dn & ls & Hls & HF & Hr).
      exists (article :: dn), ls. rewrite filter_cons_False by done.
      rewrite Hls, Hl. repeat split; [done |].
      destruct r as [[]|e]; [by subst |].
      destruct Hr as (bad & rest & -> & Hb). by exists bad, rest.
    + intros Hrun. destruct (IH _ _ _ _ Hrun) as (dn & ls & Hls & HF & Hr).
      exists (article :: dn), (l :: ls).
      rewrite filter_cons_True by eauto using yields_titled.
      rewrite Hls, Hl, <- app_assoc. repeat split; [by constructor |].
      destruct r as [[]|e]; [by subst |].
      destruct Hr as (bad & rest & -> & Hb). by exists bad, rest.
    + intros [= <- <-]. exists [], []. rewrite app_nil_r.
      repeat split; [constructor |]. by exists article, articles.
Qed.

(** ** The [try] block and the handler of [_parse_page_links] *)

Local Abbreviation parse_try := (parse_page_links_try request BeautifulSoup self).
Local Abbreviation parse_run := (_parse_page_links_run request BeautifulSoup self).
Local Abbreviation parse_page_links := (_parse_page_links request BeautifulSoup self).
Local Abbreviation parse_page_links_log :=
  (_parse_page_links_log request BeautifulSoup self).

(** On a listing the [try] block is the loop over its items. *)
Lemma try_listing page_url pe v articles st :
  listing page_url articles →
  parse_try page_url pe v st
  = match for_enumerate (body pe v) 0 articles st with
    | (st', Ok _) => (st', Ok FallThrough)
    | (st', Raise e) => (st', Raise e)
    end.
Proof.
  intros (response & section & Hreq & Hst & Hsec & <-).
  unfold parse_page_links_try, mbind, prog_bind, lift. rewrite Hreq.
  apply Z.eqb_neq in Hst. rewrite Hst, Hsec. simpl.
  by destruct (for_enumerate _ _ _ _) as [st' [[]|e]].
Qed.

(** The handler: a raise is logged and [links] is returned as it stands. *)
Lemma run_raised page_url pe v st e :
  parse_try page_url pe v fresh = (st, Raise e) →
  parse_run page_url pe v
  = ({| links := links st; log := log st ++ page_error_log page_url e |},
     Some (links st)).
Proof.
  intros Htry. unfold _parse_page_links_run. fold fresh. rewrite Htry.
  unfold mbind, prog_bind, logger_error, page_error_log. simpl.
  by rewrite <- app_assoc.
Qed.

Lemma run_listing page_url pe v articles st r :
  listing page_url articles →
  for_enumerate (body pe v) 0 articles fresh = (st, r) →
  parse_page_links page_url pe v = Some (links st)
  ∧ parse_page_links_log page_url pe v
    = log st ++ match r with
                | Ok _ => []
                | Raise e => page_error_log page_url e
                end.
Proof.
  intros Hl Hloop. unfold _parse_page_links, _parse_page_links_log.
  destruct r as [[]|e].
  - unfold _parse_page_links_run. fold fresh.
    rewrite (try_listing _ _ _ _ _ Hl), Hloop. simpl. by rewrite app_nil_r.
  - erewrite run_raised; [done |]. by rewrite (try_listing _ _ _ _ _ Hl), Hloop.
Qed.

(** A value other than [None] comes from a listing, unless it is the
    empty list. *)
Lemma links_from_listing page_url pe v ls :
  parse_page_links page_url pe v = Some ls →
  ls = [] ∨ ∃ articles, listing page_url articles.
Proof.
  unfold _parse_page_links, _parse_page_links_run, parse_page_links_try,
    listing, mbind, prog_bind, lift.
  destruct (request page_url (Some (link_locator self))) as [response|e] eqn:Hreq;
    simpl; [| intros [= <-]; by left].
  destruct (status_code response =? 404) eqn:Hst; simpl; [done |].
  destruct (find (link_container_name self) (link_container_attrs self)
              (BeautifulSoup (response_text response))) as [section|] eqn:Hsec;
    simpl; [| intros [= <-]; by left].
  intros _. right. eexists _, response, section.
  apply Z.eqb_neq in Hst. done.
Qed.

Lemma passable_anchored article :
  (titled article → anchored article) → passable article.
Proof.
  intros H. destruct (decide (titled article)) as [Ht|Ht]; [|by left].
  right. destruct (H Ht) as (a & href & Ha & Hh). destruct Ht as [t Ht].
  eexists. by exists t, a, href.
Qed.

(** What [_parse_page_links] returns on a listing: the records of the
    titled items of a prefix [done] of the items, in order; [done] is
    every item when all of them are passable. *)
Lemma page_links_spec page_url pe v articles :
  listing page_url articles →
  ∃ done ls,
    done `prefix_of` articles
    ∧ parse_page_links page_url pe v = Some ls
    ∧ Forall2 yields (filter titled done) ls
    ∧ (verbose_safe pe v → Forall passable articles → done = articles).
Proof.
  intros Hl.
  destruct (for_enumerate (body pe v) 0 articles fresh) as [st r] eqn:Hloop.
  destruct (run_listing _ _ _ _ _ _ Hl Hloop) as [Hres _].
  destruct (loop_prefix _ _ _ _ _ _ _ Hloop) as (dn & ls & Hls & HF & Hr).
  simpl in Hls. exists dn, ls. rewrite Hres, Hls.
  destruct r as [[]|e].
  - subst dn. done.
  - destruct Hr as (bad & rest & -> & Ht & Hbad).
    repeat split; [by eexists | done |].
    intros Hsafe Hall. exfalso.
    apply Forall_app in Hall as [_ Hall]. apply Forall_cons in Hall as [Hp _].
    destruct Hp as [Hnt | (l & Hy)]; [done |].
    by destruct (yields_not_raises pe v bad l e).
Qed.

(** The ways the [try] block raises: the transport raised, or the
    container was not found, or the loop raised on an item of the
    listing. *)
Lemma try_raise_cases page_url pe v st e :
  parse_try page_url pe v fresh = (st, Raise e) →
  (request page_url (Some (link_locator self)) = Raise e ∧ links st = [])
  ∨ (∃ response,
       request page_url (Some (link_locator self)) = Ok response
       ∧ find (link_container_name self) (link_container_attrs self)
              (BeautifulSoup (response_text response)) = None
       ∧ e = AttributeError ∧ links st = [])
  ∨ (∃ done bad rest,
       listing page_url (done ++ bad :: rest)
       ∧ titled bad ∧ raises pe v bad e
       ∧ Forall2 yields (filter titled done) (links st)).
Proof.
  intros Htry.
  destruct (request page_url (Some (link_locator self))) as [response|e'] eqn:Hreq.
  2: { left. revert Htry.
       unfold parse_page_links_try, mbind, prog_bind, lift. rewrite Hreq.
       by intros [= <- <-]. }
  destruct (status_code response =? 404) eqn:Hst.
  { revert Htry. unfold parse_page_links_try, mbind, prog_bind, lift.
    by rewrite Hreq, Hst. }
  destruct (find (link_container_name self) (link_container_attrs self)
              (BeautifulSoup (response_text response))) as [section|] eqn:Hsec.
  2: { right; left. exists response. revert Htry.
       unfold parse_page_links_try, mbind, prog_bind, lift.
       rewrite Hreq, Hst, Hsec. simpl. by intros [= <- <-]. }
  right; right.
  assert (Hl : listing page_url
                 (find_all (link_find_all_name self) (link_find_all_attrs self)
                           section)).
  { exists response, section. apply Z.eqb_neq in Hst. done. }
  rewrite (try_listing _ _ _ _ _ Hl) in Htry.
  destruct (for_enumerate _ _ _ _) as [st1 [[]|e1]] eqn:Hloop; [done |].
  injection Htry as -> ->.
  destruct (loop_prefix _ _ _ _ _ _ _ Hloop)
    as (dn & ls & Hls & HF & bad & rest & Heq & Ht & Hr).
  simpl in Hls. exists dn, bad, rest. rewrite Hls, <- Heq. done.
Qed.

(** ** Link discovery *)

(** C1 (amended): on a listing, the records returned are those of the
    titled items of a prefix of the items, in order, and the url of each
    record is [base_url] followed by the href of the item's first
    anchor, whatever that href is: a relative path and an absolute URI
    are both appended to [base_url] unchanged.  The prefix is the whole
    listing when every item is passable. *)
Theorem url_is_base_url_then_href page_url pe v articles :
  listing page_url articles →
  ∃ done ls,
    done `prefix_of` articles
    ∧ parse_page_links page_url pe v = Some ls
    ∧ Forall2 (λ article l,
                 ∃ a href, find "a" ∅ article = Some a
                           ∧ tag_attrs a !! "href" = Some href
                           ∧ url l = base_url self +:+ href)
              (filter titled done) ls
    ∧ (verbose_safe pe v → Forall passable articles → done = articles).
Proof.
  intros Hl. destruct (page_links_spec page_url pe v articles Hl)
    as (dn & ls & Hpre & Hres & HF & Hall).
  exists dn, ls. repeat split; [done | done | | done].
  eapply Forall2_impl; [exact HF |].
  intros article l (t & a & href & _ & Ha & Hh & ->). by exists a, href.
Qed.

(** C2: [_parse_page_links] returns [None] exactly when the transport
    answered with status code 404; in particular a listing without
    items gives the empty list, not [None]. *)
Theorem none_iff_status_404 page_url pe v :
  (parse_page_links page_url pe v = None
   ↔ ∃ response, request page_url (Some (link_locator self)) = Ok response
                 ∧ status_code response = 404)
  ∧ (listing page_url [] → parse_page_links page_url pe v = Some []).
Proof.
  split.
  - unfold _parse_page_links, _parse_page_links_run, parse_page_links_try,
      mbind, prog_bind, lift.
    destruct (request page_url (Some (link_locator self))) as [response|e];
      simpl.
    2: { split; [done |]. by intros (? & ? & _). }
    destruct (status_code response =? 404) eqn:Hst; simpl.
    + apply Z.eqb_eq in Hst. split; [|done]. intros _. by exists response.
    + apply Z.eqb_neq in Hst.
      assert (Hno : ¬ ∃ r, Ok response = Ok r ∧ status_code r = 404)
        by (intros (r & [= <-] & ?); done).
      destruct (receiver _) as [section|e]; simpl; [|done].
      by destruct (for_enumerate _ _ _ _) as [st [[]|e]].
  - intros Hl. by destruct (run_listing page_url pe v [] fresh (Ok tt) Hl).
Qed.

(** C4: when the [try] block raises, [_parse_page_links] returns the
    list [links] as it stood at the raise, and not [None]; the failure
    is logged with the page URL.  The list is empty when the transport
    raised or the container is missing, and otherwise holds the records
    of the items before the one that raised. *)
Theorem failure_returns_accumulated_links page_url pe v st e :
  parse_try page_url pe v fresh = (st, Raise e) →
  parse_page_links page_url pe v = Some (links st)
  ∧ parse_page_links page_url pe v ≠ None
  ∧ parse_page_links_log page_url pe v = log st ++ page_error_log page_url e
  ∧ (links st = []
     ∨ ∃ done bad rest,
         listing page_url (done ++ bad :: rest)
         ∧ raises pe v bad e
         ∧ Forall2 yields (filter titled done) (links st)).
Proof.
  intros Htry. unfold _parse_page_links, _parse_page_links_log.
  rewrite (run_raised _ _ _ _ _ Htry). simpl. repeat split; [done |].
  destruct (try_raise_cases _ _ _ _ _ Htry)
    as [[_ ?] | [(? & _ & _ & _ & ?) | (dn & bad & rest & ? & _ & ? & ?)]];
    [by left | by left |].
  right. by exists dn, bad, rest.
Qed.

(** C5 (amended): on a listing whose titled items each have a first
    anchor with an href, [_parse_page_links] returns one record per
    titled item, in the order of the titled items: N records for N
    titled items, that is the number of items less the K untitled
    ones. *)
Theorem one_record_per_titled_item page_url pe v articles :
  listing page_url articles →
  verbose_safe pe v →
  Forall (λ article, titled article → anchored article) articles →
  ∃ ls,
    parse_page_links page_url pe v = Some ls
    ∧ Forall2 yields (filter titled articles) ls
    ∧ length ls = length (filter titled articles)
    ∧ (length ls
       = length articles - length (filter (λ a, ¬ titled a) articles))%nat.
Proof.
  intros Hl Hsafe Hall.
  assert (Hpass : Forall passable articles).
  { eapply Forall_impl; [exact Hall |]. apply passable_anchored. }
  destruct (page_links_spec page_url pe v articles Hl)
    as (dn & ls & _ & Hres & HF & Hdone).
  rewrite (Hdone Hsafe Hpass) in HF.
  exists ls. repeat split; [done | done | |].
  - symmetry. by eapply Forall2_length.
  - rewrite <- (Forall2_length _ _ _ HF).
    cut (length articles
         = (length (filter titled articles)
            + length (filter (λ a, ¬ titled a) articles))%nat); [lia |].
    clear. induction articles as [|a l IH]; [done |].
    destruct (decide (titled a)).
    + rewrite filter_cons_True, (filter_cons_False (λ a, ¬ titled a)) by tauto.
      simpl. lia.
    + rewrite filter_cons_False, (filter_cons_True (λ a, ¬ titled a)) by tauto.
      simpl. lia.
Qed.

(** The loop body on a titled item without an anchor: [None["href"]]. *)
Lemma body_missing_anchor pe v i article st :
  titled article →
  find "a" ∅ article = None →
  body pe v i article st = (st, Raise TypeError).
Proof.
  intros [t Ht] Ha. unfold article_body, mbind, prog_bind, lift.
  by rewrite Ht, Ha.
Qed.

(** An item on which the loop body raises [e0] ends the page: whatever
    the items before it are, the records returned are those of the
    titled items of a prefix [done] of the items before it, and the
    handler logs the exception caught; when the items before it are all
    passable, [done] is all of them and the exception is [e0]. *)
Lemma raising_item_ends_the_page page_url pe v before bad after e0 :
  listing page_url (before ++ bad :: after) →
  (∀ i st, body pe v i bad st = (st, Raise e0)) →
  ∃ done ls earlier e,
    done `prefix_of` before
    ∧ parse_page_links page_url pe v = Some ls
    ∧ Forall2 yields (filter titled done) ls
    ∧ parse_page_links_log page_url pe v
      = earlier ++ page_error_log page_url e
    ∧ (verbose_safe pe v → Forall passable before →
       done = before ∧ e = e0).
Proof.
  intros Hl Hbad.
  destruct (for_enumerate (body pe v) 0 before fresh) as [st1 r1] eqn:Hrun.
  destruct (loop_prefix _ _ _ _ _ _ _ Hrun) as (dn & ls & Hls & HF & Hr).
  simpl in Hls. destruct r1 as [[]|e].
  - subst dn.
    assert (Hloop : for_enumerate (body pe v) 0 (before ++ bad :: after) fresh
                    = (st1, Raise e0)).
    { rewrite for_enumerate_app, Hrun. simpl. unfold mbind at 1, prog_bind.
      by rewrite Hbad. }
    destruct (run_listing _ _ _ _ _ _ Hl Hloop) as [Hres Hlog].
    exists before, ls, (log st1), e0. rewrite Hres, Hlog, Hls. done.
  - destruct Hr as (bad' & rest & Hbefore & Ht & Hraise).
    assert (Hloop : for_enumerate (body pe v) 0 (before ++ bad :: after) fresh
                    = (st1, Raise e)).
    { by rewrite for_enumerate_app, Hrun. }
    destruct (run_listing _ _ _ _ _ _ Hl Hloop) as [Hres Hlog].
    exists dn, ls, (log st1), e. rewrite Hres, Hlog, Hls.
    split; [by exists (bad' :: rest) |]. do 3 (split; [done |]).
    intros Hsafe Hpass. exfalso. rewrite Hbefore in Hpass.
    apply Forall_app in Hpass as [_ Hp]. apply Forall_cons in Hp as [Hp _].
    destruct Hp as [Hnt | (l & Hy)]; [done |].
    by destruct (yields_not_raises pe v bad' l e).
Qed.

(** C6 (amended): an item with a title sub-node and no anchor is not
    skipped: it ends the page.  Whatever the other items and the
    arguments are, no record is returned for it or for any item after it:
    the records returned are those of the titled items of a prefix of the
    items before it, in order, and the handler logs the exception caught
    with the page URL.  When every item before it is passable and
    [print_every] is not zero with [verbose] set, that prefix is all the
    items before it and the exception is the [TypeError] of
    [None["href"]]. *)
Theorem missing_anchor_ends_the_page page_url pe v before bad after :
  listing page_url (before ++ bad :: after) →
  titled bad →
  find "a" ∅ bad = None →
  ∃ done ls earlier e,
    done `prefix_of` before
    ∧ parse_page_links page_url pe v = Some ls
    ∧ Forall2 yields (filter titled done) ls
    ∧ parse_page_links_log page_url pe v
      = earlier ++ page_error_log page_url e
    ∧ (verbose_safe pe v → Forall passable before →
       done = before ∧ e = TypeError).
Proof.
  intros Hl Ht Hna.
  apply (raising_item_ends_the_page page_url pe v before bad after TypeError Hl).
  intros i st. by apply body_missing_anchor.
Qed.

(** C9 (amended): every record [_parse_page_links] returns comes from an
    item of the listing that has a title sub-node, and its title is the
    text of that sub-node; nothing requires that text to be non-empty.
    An item is skipped only when the title sub-node is absent: on a
    listing whose titled items each have a first anchor with an href
    (and with [print_every] not zero when [verbose] is set), every item
    with a title sub-node has its record in the result, whatever the text
    of the sub-node is, the empty string included, and there are as many
    records as titled items. *)
Theorem title_is_title_node_text page_url pe v :
  (∀ ls l,
     parse_page_links page_url pe v = Some ls →
     l ∈ ls →
     ∃ articles article title_div,
       listing page_url articles
       ∧ article ∈ articles
       ∧ find (lint_article_name self) (lint_article_attrs self) article
         = Some title_div
       ∧ title l = get_text title_div)
  ∧ (∀ articles,
       listing page_url articles →
       verbose_safe pe v →
       Forall (λ article, titled article → anchored article) articles →
       ∃ ls,
         parse_page_links page_url pe v = Some ls
         ∧ length ls = length (filter titled articles)
         ∧ ∀ article title_div,
             article ∈ articles →
             find (lint_article_name self) (lint_article_attrs self) article
             = Some title_div →
             ∃ l, l ∈ ls ∧ yields article l ∧ title l = get_text title_div
                  ∧ (get_text title_div = "" → title l = "")).
Proof.
  split.
  - intros ls l Hres Hin.
    destruct (links_from_listing _ _ _ _ Hres) as [-> | (articles & Hl)].
    { by apply elem_of_nil in Hin. }
    destruct (page_links_spec page_url pe v articles Hl)
      as (dn & ls' & Hpre & Hres' & HF & _).
    rewrite Hres in Hres'. injection Hres' as <-.
    apply list_elem_of_lookup in Hin as [i Hi].
    destruct (Forall2_lookup_r _ _ _ _ _ HF Hi) as (article & Ha & Hy).
    apply list_elem_of_lookup_2, list_elem_of_filter in Ha as [_ Ha].
    destruct Hy as (t & a & href & Ht & _ & _ & ->).
    exists articles, article, t. repeat split; [done | | done].
    destruct Hpre as [k ->]. apply elem_of_app. by left.
  - intros articles Hl Hsafe Hall.
    assert (Hpass : Forall passable articles).
    { eapply Forall_impl; [exact Hall |]. apply passable_anchored. }
    destruct (page_links_spec page_url pe v articles Hl)
      as (dn & ls & _ & Hres & HF & Hdone).
    rewrite (Hdone Hsafe Hpass) in HF.
    exists ls. split; [done |]. split; [symmetry; by eapply Forall2_length |].
    intros article title_div Hin Ht.
    assert (Hin' : article ∈ filter titled articles).
    { apply list_elem_of_filter. split; [| done]. unfold titled. by rewrite Ht. }
    apply list_elem_of_lookup in Hin' as [i Hi].
    destruct (Forall2_lookup_l _ _ _ _ _ HF Hi) as (l & Hl' & Hy).
    exists l. split; [by eapply list_elem_of_lookup_2 |]. split; [done |].
    destruct Hy as (t & a & href & Ht' & _ & _ & ->).
    rewrite Ht in Ht'. injection Ht' as <-. simpl. split; [done | by intros ->].
Qed.

(** ** Article extraction *)

Local Abbreviation extract_text := (_extract_text fromisoformat isoformat).
Local Abbreviation parse_article_text :=
  (_parse_article_text request BeautifulSoup fromisoformat isoformat).

(** [_extract_text] gives the complete record when the publication time
    is there and parses, and raises otherwise. *)
Lemma extract_text_cases content meta :
  match entry_time_of meta with
  | Some d => extract_text content meta = Ok (record_of content meta d)
  | None => ∃ e, extract_text content meta = Raise e
  end.
Proof.
  unfold _extract_text, entry_time_of, getitem_opt, getitem, record_of.
  destruct (find "time" {[ "class" := "entry-time" ]} meta) as [time_tag|];
    simpl; [| by eexists].
  destruct (tag_attrs time_tag !! "datetime") as [entry_time_str|];
    simpl; [| by eexists].
  destruct (fromisoformat entry_time_str) as [d|]; simpl; [done | by eexists].
Qed.

(** [_parse_article_text] on a fetched page, by cases on what the page
    holds. *)
Lemma article_text_cases url response :
  request url None = Ok response →
  parse_article_text url
  = match find "div" {[ "class" := "entry-content" ]}
               (BeautifulSoup (response_text response)),
          find "div" {[ "class" := "entry-meta" ]}
               (BeautifulSoup (response_text response)) with
    | Some content, Some meta => record_of content meta <$> entry_time_of meta
    | _, _ => None
    end.
Proof.
  intros Hreq.
  unfold _parse_article_text, _parse_article_text_run, parse_article_text_try,
    mbind at 1, prog_bind, lift.
  rewrite Hreq. set (soup := BeautifulSoup (response_text response)).
  destruct (find "div" {[ "class" := "entry-content" ]} soup) as [content|];
    [| by destruct (find "div" {[ "class" := "entry-meta" ]} soup)].
  destruct (find "div" {[ "class" := "entry-meta" ]} soup) as [meta|]; [|done].
  pose proof (extract_text_cases content meta) as Hx.
  destruct (entry_time_of meta) as [d|]; simpl.
  - by rewrite Hx.
  - destruct Hx as [e ->]. done.
Qed.

Lemma article_text_some url rec :
  parse_article_text url = Some rec →
  ∃ response content meta d,
    request url None = Ok response
    ∧ find "div" {[ "class" := "entry-content" ]}
           (BeautifulSoup (response_text response)) = Some content
    ∧ find "div" {[ "class" := "entry-meta" ]}
           (BeautifulSoup (response_text response)) = Some meta
    ∧ entry_time_of meta = Some d
    ∧ rec = record_of content meta d.
Proof.
  destruct (request url None) as [response|e] eqn:Hreq.
  2: { unfold _parse_article_text, _parse_article_text_run,
         parse_article_text_try, mbind, prog_bind, lift.
       by rewrite Hreq. }
  rewrite (article_text_cases url response Hreq).
  set (soup := BeautifulSoup (response_text response)).
  destruct (find "div" {[ "class" := "entry-content" ]} soup) as [content|] eqn:Hc;
    [| done].
  destruct (find "div" {[ "class" := "entry-meta" ]} soup) as [meta|] eqn:Hm;
    [| done].
  destruct (entry_time_of meta) as [d|] eqn:Hd; [| done].
  intros [= <-]. by exists response, content, meta, d.
Qed.

Lemma entry_time_of_some meta time_tag entry_time_str d :
  find "time" {[ "class" := "entry-time" ]} meta = Some time_tag →
  tag_attrs time_tag !! "datetime" = Some entry_time_str →
  fromisoformat entry_time_str = Some d →
  entry_time_of meta = Some d.
Proof. intros Ht Ha Hd. unfold entry_time_of. rewrite Ht. simpl. by rewrite Ha. Qed.

Lemma append_assoc (s1 s2 s3 : string) :
  (s1 +:+ s2) +:+ s3 = s1 +:+ (s2 +:+ s3).
Proof.
  induction s1 as [|c s1 IH]; [done |].
  change (String c ((s1 +:+ s2) +:+ s3) = String c (s1 +:+ s2 +:+ s3)).
  by f_equal.
Qed.

Lemma join_cons sep x xs :
  xs ≠ [] → join sep (x :: xs) = x +:+ sep +:+ join sep xs.
Proof. by destruct xs. Qed.

Lemma join_app sep xs ys :
  xs ≠ [] → ys ≠ [] →
  join sep (xs ++ ys) = join sep xs +:+ sep +:+ join sep ys.
Proof.
  intros Hxs Hys. induction xs as [|x xs IH]; [done |].
  destruct xs as [|x' xs].
  - simpl app. by rewrite join_cons.
  - rewrite <- app_comm_cons, join_cons by done.
    rewrite IH by done. rewrite (join_cons sep x (x' :: xs)) by done.
    by rewrite !append_assoc.
Qed.

(** C3: [_parse_article_text] returns [None] when the transport raises,
    when the content container is absent, when the metadata container
    is absent, when the publication-time element or its [datetime]
    attribute is missing, and when the attribute does not parse; a
    record is returned only when all of them are there, and it is then
    the complete record. *)
Theorem no_partial_record url :
  (∀ e, request url None = Raise e → parse_article_text url = None)
  ∧ (∀ response,
       request url None = Ok response →
       let soup := BeautifulSoup (response_text response) in
       let content_div := find "div" {[ "class" := "entry-content" ]} soup in
       let meta_div := find "div" {[ "class" := "entry-meta" ]} soup in
       (content_div = None → parse_article_text url = None)
       ∧ (meta_div = None → parse_article_text url = None)
       ∧ (∀ meta,
            meta_div = Some meta →
            find "time" {[ "class" := "entry-time" ]} meta = None →
            parse_article_text url = None)
       ∧ (∀ meta time_tag,
            meta_div = Some meta →
            find "time" {[ "class" := "entry-time" ]} meta = Some time_tag →
            tag_attrs time_tag !! "datetime" = None →
            parse_article_text url = None)
       ∧ (∀ meta time_tag entry_time_str,
            meta_div = Some meta →
            find "time" {[ "class" := "entry-time" ]} meta = Some time_tag →
            tag_attrs time_tag !! "datetime" = Some entry_time_str →
            fromisoformat entry_time_str = None →
            parse_article_text url = None)
       ∧ (∀ rec,
            parse_article_text url = Some rec →
            ∃ content meta time_tag entry_time_str d,
              content_div = Some content
              ∧ meta_div = Some meta
              ∧ find "time" {[ "class" := "entry-time" ]} meta = Some time_tag
              ∧ tag_attrs time_tag !! "datetime" = Some entry_time_str
              ∧ fromisoformat entry_time_str = Some d
              ∧ rec = record_of content meta d)).
Proof.
  split.
  { intros e Hreq.
    unfold _parse_article_text, _parse_article_text_run,
      parse_article_text_try, mbind, prog_bind, lift.
    by rewrite Hreq. }
  intros response Hreq soup content_div meta_div.
  rewrite (article_text_cases url response Hreq).
  fold soup. fold content_div. fold meta_div.
  repeat split.
  - by intros ->.
  - intros ->. by destruct content_div.
  - intros meta -> Ht. destruct content_div; [|done].
    unfold entry_time_of. by rewrite Ht.
  - intros meta time_tag -> Ht Ha. destruct content_div; [|done].
    unfold entry_time_of. rewrite Ht. simpl. by rewrite Ha.
  - intros meta time_tag entry_time_str -> Ht Ha Hd.
    destruct content_div; [|done].
    unfold entry_time_of. rewrite Ht. simpl. rewrite Ha. simpl. by rewrite Hd.
  - intros rec. destruct content_div as [content|]; [|done].
    destruct meta_div as [meta|]; [|done].
    unfold entry_time_of.
    destruct (find "time" {[ "class" := "entry-time" ]} meta)
      as [time_tag|] eqn:Ht; [|done]. simpl.
    destruct (tag_attrs time_tag !! "datetime") as [entry_time_str|] eqn:Ha;
      [|done]. simpl.
    destruct (fromisoformat entry_time_str) as [d|] eqn:Hd; [|done]. simpl.
    intros [= <-]. by exists content, meta, time_tag, entry_time_str, d.
Qed.

(** What [_parse_article_text] returns for a fetched page that holds both
    containers and a publication time that parses. *)
Lemma article_text_record url response content meta time_tag entry_time_str d :
  request url None = Ok response →
  find "div" {[ "class" := "entry-content" ]}
       (BeautifulSoup (response_text response)) = Some content →
  find "div" {[ "class" := "entry-meta" ]}
       (BeautifulSoup (response_text response)) = Some meta →
  find "time" {[ "class" := "entry-time" ]} meta = Some time_tag →
  tag_attrs time_tag !! "datetime" = Some entry_time_str →
  fromisoformat entry_time_str = Some d →
  parse_article_text url = Some (record_of content meta d).
Proof.
  intros Hreq Hc Hm Ht Ha Hd.
  rewrite (article_text_cases url response Hreq), Hc, Hm.
  by rewrite (entry_time_of_some meta time_tag entry_time_str d Ht Ha Hd).
Qed.

(** C7: for a fetched page that holds both containers and a publication
    time that parses, [_parse_article_text] returns a record whose text
    is the texts of the [p] tags of the content container, in document
    order, joined by one newline.  An empty paragraph between others is
    kept as an empty line, and paragraphs with the texts "A", "", "B"
    give the text "A", newline, newline, "B".  Conversely the text of
    any record the method returns is that join. *)
Theorem text_is_newline_joined_paragraphs url response content meta time_tag
    entry_time_str d :
  request url None = Ok response →
  find "div" {[ "class" := "entry-content" ]}
       (BeautifulSoup (response_text response)) = Some content →
  find "div" {[ "class" := "entry-meta" ]}
       (BeautifulSoup (response_text response)) = Some meta →
  find "time" {[ "class" := "entry-time" ]} meta = Some time_tag →
  tag_attrs time_tag !! "datetime" = Some entry_time_str →
  fromisoformat entry_time_str = Some d →
  ∃ rec,
    parse_article_text url = Some rec
    ∧ text rec = join newline (map get_text (find_all "p" ∅ content))
    ∧ (∀ before after,
         before ≠ [] → after ≠ [] →
         map get_text (find_all "p" ∅ content) = before ++ "" :: after →
         text rec
         = join newline before +:+ newline +:+ newline +:+ join newline after)
    ∧ (map get_text (find_all "p" ∅ content) = ["A"; ""; "B"] →
       text rec = "A" +:+ newline +:+ newline +:+ "B")
    ∧ (∀ rec',
         parse_article_text url = Some rec' →
         text rec' = join newline (map get_text (find_all "p" ∅ content))).
Proof.
  intros Hreq Hc Hm Ht Ha Hd.
  pose proof (article_text_record url response content meta time_tag
                entry_time_str d Hreq Hc Hm Ht Ha Hd) as Hrec.
  exists (record_of content meta d). split; [exact Hrec |]. split; [done |].
  split; [| split].
  - intros before after Hb Hafter Heq. simpl. rewrite Heq.
    rewrite join_app by done. by rewrite join_cons.
  - intros Heq. simpl. by rewrite Heq.
  - intros rec' Hrec'. rewrite Hrec in Hrec'. by injection Hrec' as <-.
Qed.

(** C8: for a fetched page that holds both containers and a publication
    time that parses, [_parse_article_text] returns a record whose
    categories are the texts of the [a rel="tag"] anchors of the metadata
    container, one per anchor, in document order, repeated texts kept;
    tag anchors with the texts "Policy", "Speech", "Policy" give that
    list.  Conversely the categories of any record the method returns
    are those texts. *)
Theorem categories_are_tag_anchor_texts url response content meta time_tag
    entry_time_str d :
  request url None = Ok response →
  find "div" {[ "class" := "entry-content" ]}
       (BeautifulSoup (response_text response)) = Some content →
  find "div" {[ "class" := "entry-meta" ]}
       (BeautifulSoup (response_text response)) = Some meta →
  find "time" {[ "class" := "entry-time" ]} meta = Some time_tag →
  tag_attrs time_tag !! "datetime" = Some entry_time_str →
  fromisoformat entry_time_str = Some d →
  ∃ rec,
    parse_article_text url = Some rec
    ∧ categories rec = map get_text (find_all "a" {[ "rel" := "tag" ]} meta)
    ∧ length (categories rec)
      = length (find_all "a" {[ "rel" := "tag" ]} meta)
    ∧ (∀ i a,
         find_all "a" {[ "rel" := "tag" ]} meta !! i = Some a →
         categories rec !! i = Some (get_text a))
    ∧ (map get_text (find_all "a" {[ "rel" := "tag" ]} meta)
       = ["Policy"; "Speech"; "Policy"] →
       categories rec = ["Policy"; "Speech"; "Policy"])
    ∧ (∀ rec',
         parse_article_text url = Some rec' →
         categories rec'
         = map get_text (find_all "a" {[ "rel" := "tag" ]} meta)).
Proof.
  intros Hreq Hc Hm Ht Ha Hd.
  pose proof (article_text_record url response content meta time_tag
                entry_time_str d Hreq Hc Hm Ht Ha Hd) as Hrec.
  exists (record_of content meta d). split; [exact Hrec |]. split; [done |].
  split; [simpl; by rewrite length_map |]. split; [| split].
  - intros i a Hi. simpl. change (map get_text) with (fmap (M:=list) get_text).
    by rewrite list_lookup_fmap, Hi.
  - intros Heq. simpl. by rewrite Heq.
  - intros rec' Hrec'. rewrite Hrec in Hrec'. by injection Hrec' as <-.
Qed.

(** C10: a content container without [p] tags is not a failure: with
    the metadata container and a publication time that parses, the
    record is returned and its text is the empty string. *)
Theorem empty_body_gives_empty_text url response content meta time_tag
    entry_time_str d :
  request url None = Ok response →
  find "div" {[ "class" := "entry-content" ]}
       (BeautifulSoup (response_text response)) = Some content →
  find_all "p" ∅ content = [] →
  find "div" {[ "class" := "entry-meta" ]}
       (BeautifulSoup (response_text response)) = Some meta →
  find "time" {[ "class" := "entry-time" ]} meta = Some time_tag →
  tag_attrs time_tag !! "datetime" = Some entry_time_str →
  fromisoformat entry_time_str = Some d →
  parse_article_text url
  = Some {| categories :=
              map get_text (find_all "a" {[ "rel" := "tag" ]} meta);
            time := isoformat d;
            text := "" |}.
Proof.
  intros Hreq Hc Hp Hm Ht Ha Hd.
  rewrite (article_text_cases url response Hreq), Hc, Hm.
  rewrite (entry_time_of_some meta time_tag entry_time_str d Ht Ha Hd).
  simpl. unfold record_of. by rewrite Hp.
Qed.

End Properties.

(** ** The theorems on the sample documents *)

Import Samples.

(** A listing with a relative and an absolute href: both are appended to
    the base URL. *)
Lemma url_is_base_url_then_href_sample :
  listing (respond 200) (parsed_as (listing_doc [row_relative; row_absolute]))
          fetcher page_url [row_relative; row_absolute]
  ∧ ∃ done ls,
      done `prefix_of` [row_relative; row_absolute]
      ∧ _parse_page_links (respond 200)
          (parsed_as (listing_doc [row_relative; row_absolute]))
          fetcher page_url 10 false = Some ls
      ∧ Forall2 (λ article l,
                   ∃ a href, find "a" ∅ article = Some a
                             ∧ tag_attrs a !! "href" = Some href
                             ∧ url l = base_url fetcher +:+ href)
                (filter (titled fetcher) done) ls
      ∧ (verbose_safe 10 false →
         Forall (passable fetcher) [row_relative; row_absolute] →
         done = [row_relative; row_absolute]).
Proof.
  assert (H : listing (respond 200)
                (parsed_as (listing_doc [row_relative; row_absolute]))
                fetcher page_url [row_relative; row_absolute]).
  { eexists _, _. split; [reflexivity |]. split; [simpl; lia |].
    split; vm_compute; reflexivity. }
  split; [exact H |].
  exact (url_is_base_url_then_href _ _ _ _ 10 false _ H).
Defined.

(** C1, as the claim states it for an absolute href: the item's href is
    an absolute URI, and the url of its record is not that href. *)
Lemma absolute_href_is_not_passed_through :
  ∃ a l,
    find "a" ∅ row_absolute = Some a
    ∧ tag_attrs a !! "href" = Some "https://www.bis.org/review/r230102b.htm"
    ∧ String.prefix "https://" "https://www.bis.org/review/r230102b.htm" = true
    ∧ _parse_page_links (respond 200) (parsed_as (listing_doc [row_absolute]))
        fetcher page_url 10 false = Some [l]
    ∧ url l = "https://www.bis.orghttps://www.bis.org/review/r230102b.htm"
    ∧ url l ≠ "https://www.bis.org/review/r230102b.htm".
Proof.
  eexists _, _. split; [vm_compute; reflexivity |].
  split; [vm_compute; reflexivity |]. split; [reflexivity |].
  split; [vm_compute; reflexivity |]. split; [reflexivity | discriminate].
Qed.

(** A transport that answers 404. *)
Lemma none_iff_status_404_sample :
  _parse_page_links (respond 404) (parsed_as (listing_doc [row_relative]))
    fetcher page_url 10 false = None.
Proof.
  apply (proj1 (none_iff_status_404 (respond 404)
                  (parsed_as (listing_doc [row_relative])) fetcher
                  page_url 10 false)).
  eexists. split; reflexivity.
Defined.

(** A listing whose second item has no anchor: the [try] block raises
    with one record in [links]. *)
Lemma failure_returns_accumulated_links_sample :
  parse_page_links_try (respond 200)
    (parsed_as (listing_doc [row_relative; row_no_anchor; row_relative]))
    fetcher page_url 10 false fresh
  = ({| links := [{| title := "Opening remarks";
                     url := "https://www.bis.org/review/r230101a.htm" |}];
        log := [] |}, Raise TypeError)
  ∧ _parse_page_links (respond 200)
      (parsed_as (listing_doc [row_relative; row_no_anchor; row_relative]))
      fetcher page_url 10 false
    = Some [{| title := "Opening remarks";
               url := "https://www.bis.org/review/r230101a.htm" |}].
Proof.
  assert (H : parse_page_links_try (respond 200)
                (parsed_as (listing_doc [row_relative; row_no_anchor; row_relative]))
                fetcher page_url 10 false fresh
              = ({| links := [{| title := "Opening remarks";
                                 url := "https://www.bis.org/review/r230101a.htm" |}];
                    log := [] |}, Raise TypeError))
    by (vm_compute; reflexivity).
  split; [exact H |].
  exact (proj1 (failure_returns_accumulated_links _ _ _ _ _ _ _ _ H)).
Defined.

(** A listing of a titled item, an untitled item and a titled item: two
    records. *)
Lemma one_record_per_titled_item_sample :
  ∃ ls,
    _parse_page_links (respond 200)
      (parsed_as (listing_doc [row_relative; row_untitled; row_absolute]))
      fetcher page_url 10 false = Some ls
    ∧ Forall2 (yields fetcher)
        (filter (titled fetcher) [row_relative; row_untitled; row_absolute]) ls
    ∧ length ls
      = length (filter (titled fetcher)
                  [row_relative; row_untitled; row_absolute])
    ∧ (length ls
       = length [row_relative; row_untitled; row_absolute]
         - length (filter (λ a, ¬ titled fetcher a)
                     [row_relative; row_untitled; row_absolute]))%nat.
Proof.
  apply (one_record_per_titled_item (respond 200)
           (parsed_as (listing_doc [row_relative; row_untitled; row_absolute]))
           fetcher page_url 10 false).
  - eexists _, _. split; [reflexivity |]. split; [simpl; lia |].
    split; vm_compute; reflexivity.
  - left. reflexivity.
  - repeat constructor; intros _; eexists _, _; split; vm_compute; reflexivity.
Defined.

(** C5, as the claim states it: one titled item (N = 1) that has an
    anchor, one untitled item (K = 1), and the number of records is not
    N - K. *)
Lemma titled_count_less_untitled_count_is_wrong :
  listing (respond 200) (parsed_as (listing_doc [row_relative; row_untitled]))
          fetcher page_url [row_relative; row_untitled]
  ∧ length (filter (titled fetcher) [row_relative; row_untitled]) = 1%nat
  ∧ length (filter (λ a, ¬ titled fetcher a) [row_relative; row_untitled]) = 1%nat
  ∧ Forall (λ a, titled fetcher a → anchored a) [row_relative; row_untitled]
  ∧ ∃ ls,
      _parse_page_links (respond 200)
        (parsed_as (listing_doc [row_relative; row_untitled]))
        fetcher page_url 10 false = Some ls
      ∧ length ls ≠ (1 - 1)%nat.
Proof.
  split.
  { eexists _, _. split; [reflexivity |]. split; [simpl; lia |].
    split; vm_compute; reflexivity. }
  split; [vm_compute; reflexivity |]. split; [vm_compute; reflexivity |].
  split.
  { repeat constructor; intros _; eexists _, _; split; vm_compute; reflexivity. }
  eexists. split; [vm_compute; reflexivity |]. simpl. lia.
Qed.

(** A listing whose second item has a title and no anchor: the record of
    the first item is returned, the third item gives none, and the
    [TypeError] is logged. *)
Lemma missing_anchor_ends_the_page_sample :
  ∃ ls earlier,
    _parse_page_links (respond 200)
      (parsed_as (listing_doc [row_relative; row_no_anchor; row_absolute]))
      fetcher page_url 10 false = Some ls
    ∧ Forall2 (yields fetcher) (filter (titled fetcher) [row_relative]) ls
    ∧ _parse_page_links_log (respond 200)
        (parsed_as (listing_doc [row_relative; row_no_anchor; row_absolute]))
        fetcher page_url 10 false
      = earlier ++ page_error_log page_url TypeError.
Proof.
  destruct (missing_anchor_ends_the_page (respond 200)
              (parsed_as (listing_doc [row_relative; row_no_anchor; row_absolute]))
              fetcher page_url 10 false [row_relative] row_no_anchor
              [row_absolute])
    as (dn & ls & earlier & e & _ & Hres & HF & Hlog & Hcond).
  - eexists _, _. split; [reflexivity |]. split; [simpl; lia |].
    split; vm_compute; reflexivity.
  - eexists. vm_compute. reflexivity.
  - vm_compute. reflexivity.
  - destruct Hcond as [-> ->].
    + left. reflexivity.
    + constructor; [| constructor]. right. eexists. eexists _, _, _.
      repeat split; vm_compute; reflexivity.
    + exists ls, earlier. split; [exact Hres |]. split; [exact HF | exact Hlog].
Defined.

(** C6, as the claim states it: the item after the one without an anchor
    has a record of its own, and that record is not returned. *)
Lemma item_after_missing_anchor_is_lost :
  listing (respond 200) (parsed_as (listing_doc [row_no_anchor; row_relative]))
          fetcher page_url [row_no_anchor; row_relative]
  ∧ titled fetcher row_no_anchor
  ∧ find "a" ∅ row_no_anchor = None
  ∧ yields fetcher row_relative
      {| title := "Opening remarks";
         url := "https://www.bis.org/review/r230101a.htm" |}
  ∧ _parse_page_links (respond 200)
      (parsed_as (listing_doc [row_no_anchor; row_relative]))
      fetcher page_url 10 false = Some []
  ∧ ¬ {| title := "Opening remarks";
         url := "https://www.bis.org/review/r230101a.htm" |}
      ∈ ([] : list Link).
Proof.
  split.
  { eexists _, _. split; [reflexivity |]. split; [simpl; lia |].
    split; vm_compute; reflexivity. }
  split; [eexists; vm_compute; reflexivity |].
  split; [vm_compute; reflexivity |].
  split; [eexists _, _, _; repeat split; vm_compute; reflexivity |].
  split; [vm_compute; reflexivity |]. apply not_elem_of_nil.
Qed.

(** A listing whose second item has a title sub-node without text: the
    item is not skipped, and its record carries the empty title. *)
Lemma title_is_title_node_text_sample :
  ∃ ls l,
    _parse_page_links (respond 200)
      (parsed_as (listing_doc [row_relative; row_empty_title]))
      fetcher page_url 10 false = Some ls
    ∧ length ls = 2%nat
    ∧ l ∈ ls
    ∧ yields fetcher row_empty_title l
    ∧ title l = "".
Proof.
  destruct (proj2 (title_is_title_node_text (respond 200)
                     (parsed_as (listing_doc [row_relative; row_empty_title]))
                     fetcher page_url 10 false)
                  [row_relative; row_empty_title])
    as (ls & Hres & Hlen & Hevery).
  - eexists _, _. split; [reflexivity |]. split; [simpl; lia |].
    split; vm_compute; reflexivity.
  - left. reflexivity.
  - repeat constructor; intros _; eexists _, _; split; vm_compute; reflexivity.
  - destruct (Hevery row_empty_title
                (title_div [Tag "a" {[ "href" := "/review/r230105e.htm" ]} []]))
      as (l & Hin & Hy & _ & Hempty).
    + apply list_elem_of_further, list_elem_of_here.
    + vm_compute. reflexivity.
    + exists ls, l. split; [exact Hres |].
      split; [rewrite Hlen; vm_compute; reflexivity |].
      split; [exact Hin |]. split; [exact Hy |].
      apply Hempty. vm_compute. reflexivity.
Defined.

(** C9, as the claim states it: an item whose title sub-node holds no
    text is appended, with the empty string as its title. *)
Lemma empty_title_is_emitted :
  ∃ l,
    _parse_page_links (respond 200) (parsed_as (listing_doc [row_empty_title]))
      fetcher page_url 10 false = Some [l]
    ∧ title l = "".
Proof. eexists. split; [vm_compute; reflexivity | reflexivity]. Qed.

(** An article without a metadata container: no record. *)
Lemma no_partial_record_sample :
  _parse_article_text (respond 200) (parsed_as (article_doc [content_ABA]))
    Samples.fromisoformat Samples.isoformat article_url = None.
Proof.
  destruct (no_partial_record (respond 200)
              (parsed_as (article_doc [content_ABA]))
              Samples.fromisoformat Samples.isoformat article_url) as [_ H].
  destruct (H _ eq_refl) as (_ & Hmeta & _).
  apply Hmeta. vm_compute. reflexivity.
Defined.

(** The article with the paragraphs "A", "", "B": the method returns a
    record with the text "A", newline, newline, "B". *)
Lemma text_is_newline_joined_paragraphs_sample :
  ∃ rec,
    _parse_article_text (respond 200)
      (parsed_as (article_doc [content_ABA; meta_policy]))
      Samples.fromisoformat Samples.isoformat article_url = Some rec
    ∧ text rec = "A" +:+ newline +:+ newline +:+ "B".
Proof.
  destruct (text_is_newline_joined_paragraphs (respond 200)
              (parsed_as (article_doc [content_ABA; meta_policy]))
              Samples.fromisoformat Samples.isoformat article_url
              {| status_code := 200; response_text := article_url |}
              content_ABA meta_policy
              (entry_time "2023-01-01T09:30:00") "2023-01-01T09:30:00"
              "2023-01-01T09:30:00")
    as (rec & Hrec & _ & _ & HABA & _).
  1-6: vm_compute; reflexivity.
  exists rec. split; [exact Hrec |]. apply HABA. vm_compute. reflexivity.
Defined.

(** The same article: the method returns a record with the categories
    "Policy", "Speech", "Policy". *)
Lemma categories_are_tag_anchor_texts_sample :
  ∃ rec,
    _parse_article_text (respond 200)
      (parsed_as (article_doc [content_ABA; meta_policy]))
      Samples.fromisoformat Samples.isoformat article_url = Some rec
    ∧ categories rec = ["Policy"; "Speech"; "Policy"].
Proof.
  destruct (categories_are_tag_anchor_texts (respond 200)
              (parsed_as (article_doc [content_ABA; meta_policy]))
              Samples.fromisoformat Samples.isoformat article_url
              {| status_code := 200; response_text := article_url |}
              content_ABA meta_policy
              (entry_time "2023-01-01T09:30:00") "2023-01-01T09:30:00"
              "2023-01-01T09:30:00")
    as (rec & Hrec & _ & _ & _ & Hpolicy & _).
  1-6: vm_compute; reflexivity.
  exists rec. split; [exact Hrec |]. apply Hpolicy. vm_compute. reflexivity.
Defined.

(** An article whose content container holds no paragraph. *)
Lemma empty_body_gives_empty_text_sample :
  _parse_article_text (respond 200)
    (parsed_as (article_doc [entry_content []; meta_policy]))
    Samples.fromisoformat Samples.isoformat article_url
  = Some {| categories := map get_text
                            (find_all "a" {[ "rel" := "tag" ]} meta_policy);
            time := Samples.isoformat "2023-01-01T09:30:00";
            text := "" |}.
Proof.
  apply (empty_body_gives_empty_text (respond 200)
           (parsed_as (article_doc [entry_content []; meta_policy]))
           Samples.fromisoformat Samples.isoformat article_url
           {| status_code := 200; response_text := article_url |}
           (entry_content []) meta_policy
           (entry_time "2023-01-01T09:30:00") "2023-01-01T09:30:00").
  all: vm_compute; reflexivity.
Defined.

(** ** Further properties of the two methods *)

Section Behaviour.
Context {datetime : Type}.
Variable request : string → option (string * string) → result Response.
Variable BeautifulSoup : string → node.
Variable fromisoformat : string → option datetime.
Variable isoformat : datetime → string.
Variable self : BisFetcher.

(** The record logged when the page answers 404. *)
Definition page_missing_log (page_url : string) : list log_record :=
  [ {| lvl := INFO; msg := ArgStr "Page [%s] does not exist, stopping...";
       args := [ArgStr page_url] |} ].

(** The record logged for an item without a title sub-node. *)
Definition no_title_record (article_no : Z) : log_record :=
  {| lvl := INFO; msg := ArgStr "No title found for article %s";
     args := [ArgInt article_no] |}.

(** The two records the handler of [_parse_article_text] logs. *)
Definition article_error_log (url : string) (e : exn) : list log_record :=
  [ {| lvl := ERROR; msg := ArgStr "Error while scraping the article url: %s";
       args := [ArgStr url] |};
    {| lvl := ERROR; msg := ArgExn e; args := [] |} ].

Local Abbreviation body := (article_body self).
Local Abbreviation parse_run := (_parse_page_links_run request BeautifulSoup self).
Local Abbreviation parse_page_links := (_parse_page_links request BeautifulSoup self).
Local Abbreviation parse_page_links_log :=
  (_parse_page_links_log request BeautifulSoup self).
Local Abbreviation the_listing := (listing request BeautifulSoup self).
Local Abbreviation extract_text := (_extract_text fromisoformat isoformat).
Local Abbreviation article_run :=
  (_parse_article_text_run request BeautifulSoup fromisoformat isoformat).
Local Abbreviation parse_article_text :=
  (_parse_article_text request BeautifulSoup fromisoformat isoformat).
Local Abbreviation parse_article_text_log :=
  (_parse_article_text_log request BeautifulSoup fromisoformat isoformat).

(** The whole of [_parse_page_links], by cases on the transport's answer
    and on the container. *)
Lemma parse_run_cases page_url pe v :
  (∃ e, request page_url (Some (link_locator self)) = Raise e
        ∧ parse_run page_url pe v
          = ({| links := []; log := page_error_log page_url e |}, Some []))
  ∨ (∃ response,
       request page_url (Some (link_locator self)) = Ok response
       ∧ status_code response = 404
       ∧ parse_run page_url pe v
         = ({| links := []; log := page_missing_log page_url |}, None))
  ∨ (∃ response,
       request page_url (Some (link_locator self)) = Ok response
       ∧ status_code response ≠ 404
       ∧ find (link_container_name self) (link_container_attrs self)
              (BeautifulSoup (response_text response)) = None
       ∧ parse_run page_url pe v
         = ({| links := []; log := page_error_log page_url AttributeError |},
            Some []))
  ∨ (∃ articles, the_listing page_url articles).
Proof.
  unfold _parse_page_links_run, parse_page_links_try, mbind, prog_bind, lift.
  destruct (request page_url (Some (link_locator self))) as [response|e] eqn:Hreq.
  2: { left. by exists e. }
  right. destruct (status_code response =? 404) eqn:Hst.
  { left. exists response. apply Z.eqb_eq in Hst. done. }
  right. apply Z.eqb_neq in Hst.
  destruct (find (link_container_name self) (link_container_attrs self)
              (BeautifulSoup (response_text response))) as [section|] eqn:Hsec.
  - right. eexists. by exists response, section.
  - left. exists response. done.
Qed.

(** X1: a page that cannot be fetched, or whose document has no
    container, gives the empty list and not [None], and exactly the two
    error records are logged: the page URL, then the exception (the
    transport's own, or [AttributeError] for the missing container). *)
Theorem unusable_page_gives_empty_list page_url pe v :
  (∀ e,
     request page_url (Some (link_locator self)) = Raise e →
     parse_page_links page_url pe v = Some []
     ∧ parse_page_links_log page_url pe v = page_error_log page_url e)
  ∧ (∀ response,
       request page_url (Some (link_locator self)) = Ok response →
       status_code response ≠ 404 →
       find (link_container_name self) (link_container_attrs self)
            (BeautifulSoup (response_text response)) = None →
       parse_page_links page_url pe v = Some []
       ∧ parse_page_links_log page_url pe v
         = page_error_log page_url AttributeError).
Proof.
  unfold _parse_page_links, _parse_page_links_log.
  destruct (parse_run_cases page_url pe v)
    as [(e & Hreq & ->) | [(r & Hreq & Hst & ->) | [(r & Hreq & Hst & Hsec & ->)
        | (articles & r & section & Hreq & Hst & Hsec & _)]]];
    (split; [intros e' Hreq' | intros r' Hreq' Hst' Hsec']);
    rewrite Hreq in Hreq'; simplify_eq; first [done | congruence].
Qed.

(** A titled item whose first anchor has no href stops the loop with
    [KeyError]. *)
Lemma body_missing_href pe v i article a st :
  titled self article →
  find "a" ∅ article = Some a →
  tag_attrs a !! "href" = None →
  body pe v i article st = (st, Raise (KeyError "href")).
Proof.
  intros [t Ht] Ha Hh. unfold article_body, mbind, prog_bind, lift.
  rewrite Ht, Ha. unfold getitem_opt, getitem. by rewrite Hh.
Qed.

(** X2: an item with a title sub-node whose first anchor carries no href
    is not skipped: it ends the page.  Whatever the other items and the
    arguments are, no record is returned for it or for any item after it:
    the records returned are those of the titled items of a prefix of the
    items before it, in order, and the handler logs the exception caught
    with the page URL.  When every item before it is passable and
    [print_every] is not zero with [verbose] set, that prefix is all the
    items before it and the exception is [KeyError] for the key href. *)
Theorem missing_href_ends_the_page page_url pe v before bad a after :
  the_listing page_url (before ++ bad :: after) →
  titled self bad →
  find "a" ∅ bad = Some a →
  tag_attrs a !! "href" = None →
  ∃ done ls earlier e,
    done `prefix_of` before
    ∧ parse_page_links page_url pe v = Some ls
    ∧ Forall2 (yields self) (filter (titled self) done) ls
    ∧ parse_page_links_log page_url pe v
      = earlier ++ page_error_log page_url e
    ∧ (verbose_safe pe v → Forall (passable self) before →
       done = before ∧ e = KeyError "href").
Proof.
  intros Hl Ht Ha Hh.
  apply (raising_item_ends_the_page request BeautifulSoup self page_url pe v
           before bad after (KeyError "href") Hl).
  intros i st. by apply (body_missing_href pe v i bad a).
Qed.

(** With [verbose] set and [print_every] zero, a titled item with an href
    raises at the verbose check, before anything is appended. *)
Lemma body_zero_print_every i article l st :
  yields self article l →
  body 0 true i article st = (st, Raise ZeroDivisionError).
Proof.
  intros (t & a & href & Ht & Ha & Hh & _).
  unfold article_body, mbind, prog_bind, lift.
  rewrite Ht, Ha. unfold getitem_opt, getitem. by rewrite Hh.
Qed.

Lemma loop_zero_print_every articles :
  ∀ i st, links (for_enumerate (body 0 true) i articles st).1 = links st.
Proof.
  induction articles as [|article articles IH]; intros i st; [done |].
  simpl. unfold mbind, prog_bind.
  destruct (article_body_cases self 0 true i article st)
    as [(_ & st1 & -> & Hl) | [(l & st1 & Hy & Hb & _) | (_ & e & _ & ->)]].
  - by rewrite IH.
  - by rewrite (body_zero_print_every i article l st Hy) in Hb.
  - done.
Qed.

(** X3: called with [verbose] set and [print_every] zero,
    [_parse_page_links] never returns a record: the verbose check divides
    by zero on the first item that would give one, so the result is [None]
    (a 404) or the empty list. *)
Theorem zero_print_every_gives_no_record page_url :
  parse_page_links page_url 0 true = None
  ∨ parse_page_links page_url 0 true = Some [].
Proof.
  unfold _parse_page_links.
  destruct (parse_run_cases page_url 0 true)
    as [(e & _ & ->) | [(r & _ & _ & ->) | [(r & _ & _ & _ & ->)
        | (articles & Hl)]]]; [by right | by left | by right |].
  right.
  destruct (for_enumerate (body 0 true) 0 articles fresh) as [st r] eqn:Hloop.
  destruct (run_listing _ _ _ _ _ _ _ _ _ Hl Hloop) as [Hres _].
  unfold _parse_page_links in Hres. rewrite Hres.
  pose proof (loop_zero_print_every articles 0 fresh) as Hk.
  rewrite Hloop in Hk. simpl in Hk. by rewrite Hk.
Qed.

(** The record of an item is determined by the item. *)
Lemma yields_functional article l1 l2 :
  yields self article l1 → yields self article l2 → l1 = l2.
Proof.
  intros (t1 & a1 & h1 & Ht1 & Ha1 & Hh1 & ->)
         (t2 & a2 & h2 & Ht2 & Ha2 & Hh2 & ->).
  by simplify_eq.
Qed.

(** Two runs of the loop that differ in [print_every], [verbose], the
    starting index and the log append the same records and end the same
    way. *)
Lemma loop_verbose_irrelevant pe v pe' v' articles :
  verbose_safe pe v → verbose_safe pe' v' →
  ∀ i i' st1 st2,
    links st1 = links st2 →
    links (for_enumerate (body pe v) i articles st1).1
    = links (for_enumerate (body pe' v') i' articles st2).1
    ∧ (for_enumerate (body pe v) i articles st1).2
      = (for_enumerate (body pe' v') i' articles st2).2.
Proof.
  intros Hs Hs'.
  induction articles as [|article articles IH]; intros i i' st1 st2 Heq; [done |].
  simpl. unfold mbind, prog_bind.
  destruct (article_body_cases self pe v i article st1)
    as [(Hnt & s1 & -> & Hl1) | [(l1 & s1 & Hy1 & -> & Hl1) | (Ht1 & e1 & Hr1 & ->)]];
  destruct (article_body_cases self pe' v' i' article st2)
    as [(Hnt' & s2 & -> & Hl2) | [(l2 & s2 & Hy2 & -> & Hl2) | (Ht2 & e2 & Hr2 & ->)]].
  - apply IH. congruence.
  - by destruct Hnt; eapply yields_titled.
  - done.
  - by destruct Hnt'; eapply yields_titled.
  - apply IH. rewrite Hl1, Hl2, Heq. by rewrite (yields_functional _ _ _ Hy1 Hy2).
  - by destruct (yields_not_raises self pe' v' article l1 e2).
  - done.
  - by destruct (yields_not_raises self pe v article l2 e1).
  - simpl. split; [done |].
    destruct Hr1 as [Hr1 | (_ & ? & ? & _)]; [| destruct Hs; congruence].
    destruct Hr2 as [Hr2 | (_ & ? & ? & _)]; [| destruct Hs'; congruence].
    congruence.
Qed.

(** X4: apart from the division by zero, [print_every] and [verbose]
    only change what is logged: the value [_parse_page_links] returns is
    the same for all of them. *)
Theorem verbose_only_changes_the_log page_url pe v pe' v' :
  verbose_safe pe v → verbose_safe pe' v' →
  parse_page_links page_url pe v = parse_page_links page_url pe' v'.
Proof.
  intros Hs Hs'. unfold _parse_page_links.
  destruct (parse_run_cases page_url pe v)
    as [(e & Hreq & ->) | [(r & Hreq & Hst & ->) | [(r & Hreq & Hst & Hsec & ->)
        | (articles & Hl)]]];
  destruct (parse_run_cases page_url pe' v')
    as [(e2 & Hreq2 & ->) | [(r2 & Hreq2 & Hst2 & ->)
        | [(r2 & Hreq2 & Hst2 & Hsec2 & ->) | (articles2 & Hl2)]]];
    try done;
    try (rewrite Hreq in Hreq2; simplify_eq; congruence);
    try (destruct Hl as (r3 & sec & Hreq3 & Hst3 & Hsec3 & _);
         rewrite Hreq3 in Hreq2; simplify_eq; congruence);
    try (destruct Hl2 as (r3 & sec & Hreq3 & Hst3 & Hsec3 & _);
         rewrite Hreq3 in Hreq; simplify_eq; congruence).
  destruct (for_enumerate (body pe v) 0 articles fresh) as [st1 r1] eqn:Hloop1.
  destruct (for_enumerate (body pe' v') 0 articles fresh) as [st2 r2] eqn:Hloop2.
  destruct (run_listing _ _ _ _ _ _ _ _ _ Hl Hloop1) as [Hres1 _].
  destruct (run_listing _ _ _ _ _ _ _ _ _ Hl Hloop2) as [Hres2 _].
  unfold _parse_page_links in Hres1, Hres2. rewrite Hres1, Hres2.
  destruct (loop_verbose_irrelevant pe v pe' v' articles Hs Hs' 0 0 fresh fresh
              eq_refl) as [Hk _].
  rewrite Hloop1, Hloop2 in Hk. simpl in Hk. by rewrite Hk.
Qed.

(** The loop body on an untitled item, and on an item with a record when
    [verbose] is off. *)
Lemma body_untitled pe v i article st :
  ¬ titled self article →
  body pe v i article st
  = ({| links := links st; log := log st ++ [no_title_record i] |}, Ok tt).
Proof.
  intros Hnt. unfold article_body, titled in *.
  destruct (find (lint_article_name self) (lint_article_attrs self) article);
    [| done].
  by destruct Hnt.
Qed.

Lemma body_quiet pe i article l st :
  yields self article l →
  body pe false i article st
  = ({| links := links st ++ [l]; log := log st |}, Ok tt).
Proof.
  intros (t & a & href & Ht & Ha & Hh & ->).
  unfold article_body, mbind, prog_bind, lift.
  rewrite Ht, Ha. unfold getitem_opt, getitem. by rewrite Hh.
Qed.

Lemma loop_quiet_log pe articles :
  Forall (passable self) articles →
  ∀ i st,
    log (for_enumerate (body pe false) i articles st).1
    = log st
      ++ concat (imap (λ k a, if decide (titled self a) then []
                              else [no_title_record (i + Z.of_nat k)])
                      articles).
Proof.
  induction 1 as [|article articles Hp _ IH]; intros i st.
  - simpl. by rewrite app_nil_r.
  - simpl for_enumerate. unfold mbind at 1, prog_bind.
    rewrite imap_cons. simpl concat.
    destruct Hp as [Hnt | (l & Hy)].
    + rewrite (body_untitled pe false i article st Hnt), IH. simpl.
      rewrite decide_False by done. rewrite Z.add_0_r, <- app_assoc. simpl.
      do 3 f_equal. apply imap_ext. intros k a _. simpl.
      by replace (i + 1 + Z.of_nat k) with (i + Z.of_nat (S k)) by lia.
    + rewrite (body_quiet pe i article l st Hy), IH. simpl.
      rewrite decide_True by eauto using yields_titled. simpl.
      do 2 f_equal. apply imap_ext. intros k a _. simpl.
      by replace (i + 1 + Z.of_nat k) with (i + Z.of_nat (S k)) by lia.
Qed.

(** X5: with [verbose] off, on a listing whose items are all passable,
    the log holds one record per item without a title sub-node, in page
    order, and the number it carries is the position of that item among
    all the items of the page, counted from 0. *)
Theorem quiet_log_numbers_untitled_items page_url pe articles :
  the_listing page_url articles →
  Forall (passable self) articles →
  parse_page_links_log page_url pe false
  = concat (imap (λ k a, if decide (titled self a) then []
                         else [no_title_record (Z.of_nat k)])
                 articles).
Proof.
  intros Hl Hpass.
  destruct (for_enumerate (body pe false) 0 articles fresh) as [st r] eqn:Hloop.
  destruct (loop_passable self pe false articles (or_introl eq_refl) Hpass 0 fresh)
    as (st' & ls & Hrun & _).
  rewrite Hloop in Hrun. injection Hrun as <- ->.
  destruct (run_listing _ _ _ _ _ _ _ _ _ Hl Hloop) as [_ Hlog].
  rewrite Hlog, app_nil_r.
  pose proof (loop_quiet_log pe articles Hpass 0 fresh) as Hq.
  rewrite Hloop in Hq. simpl in Hq. rewrite Hq.
  apply f_equal, imap_ext. intros k a _. by rewrite Z.add_0_l.
Qed.

(** X6: on a listing, [_parse_page_links] returns a list with at most one
    record per titled item, hence never more records than the page has
    items. *)
Theorem never_more_records_than_titled_items page_url pe v articles :
  the_listing page_url articles →
  ∃ ls,
    parse_page_links page_url pe v = Some ls
    ∧ (length ls ≤ length (filter (titled self) articles))%nat
    ∧ (length ls ≤ length articles)%nat.
Proof.
  intros Hl. destruct (page_links_spec _ _ _ page_url pe v articles Hl)
    as (dn & ls & [k ->] & Hres & HF & _).
  exists ls. split; [done |].
  apply Forall2_length in HF.
  pose proof (length_filter (titled self) (dn ++ k)) as Hle.
  rewrite filter_app, length_app in *. lia.
Qed.

Lemma prefix_append (s t : string) : String.prefix s (s +:+ t) = true.
Proof.
  induction s as [|c s IH].
  - change ("" +:+ t) with t. by destruct t.
  - change (String c s +:+ t) with (String c (s +:+ t)). simpl.
    by destruct (ascii_dec c c).
Qed.

(** X7: the url of every record [_parse_page_links] returns begins with
    [base_url]. *)
Theorem url_begins_with_base_url page_url pe v ls l :
  parse_page_links page_url pe v = Some ls →
  l ∈ ls →
  String.prefix (base_url self) (url l) = true.
Proof.
  intros Hres Hin.
  destruct (links_from_listing _ _ _ _ _ _ _ Hres) as [-> | (articles & Hl)].
  { by apply elem_of_nil in Hin. }
  destruct (page_links_spec _ _ _ page_url pe v articles Hl)
    as (dn & ls' & _ & Hres' & HF & _).
  rewrite Hres in Hres'. injection Hres' as <-.
  apply list_elem_of_lookup in Hin as [i Hi].
  destruct (Forall2_lookup_r _ _ _ _ _ HF Hi) as (article & _ & Hy).
  destruct Hy as (t & a & href & _ & _ & _ & ->). apply prefix_append.
Qed.

(** Everything the loop logs is at level INFO. *)
Lemma body_logs_info pe v i article st :
  ∃ new, log (body pe v i article st).1 = log st ++ new
         ∧ Forall (λ r, lvl r = INFO) new.
Proof.
  unfold article_body, mbind, prog_bind, lift.
  destruct (find (lint_article_name self) (lint_article_attrs self) article)
    as [t|].
  2: { eexists. split; [reflexivity |]. by repeat constructor. }
  destruct (getitem_opt (find "a" ∅ article) "href") as [href|e].
  2: { exists []. by rewrite app_nil_r. }
  destruct v; simpl.
  2: { exists []. by rewrite app_nil_r. }
  unfold py_mod. destruct (pe =? 0); simpl.
  { exists []. by rewrite app_nil_r. }
  destruct (i `mod` pe =? 0); simpl.
  - eexists. rewrite <- app_assoc. split; [reflexivity |]. by repeat constructor.
  - exists []. by rewrite app_nil_r.
Qed.

Lemma loop_logs_info pe v articles :
  ∀ i st, ∃ new,
    log (for_enumerate (body pe v) i articles st).1 = log st ++ new
    ∧ Forall (λ r, lvl r = INFO) new.
Proof.
  induction articles as [|article articles IH]; intros i st.
  { exists []. by rewrite app_nil_r. }
  simpl. unfold mbind, prog_bind.
  destruct (body_logs_info pe v i article st) as (new1 & Hlog1 & Hinfo1).
  destruct (body pe v i article st) as [st1 [[]|e]]; simpl in Hlog1.
  - destruct (IH (i + 1) st1) as (new2 & Hlog2 & Hinfo2).
    exists (new1 ++ new2). rewrite Hlog2, Hlog1, <- app_assoc.
    split; [done |]. by apply Forall_app.
  - by exists new1.
Qed.

(** X8: [_parse_page_links] logs at level ERROR only in its handler: the
    log is a run of INFO records, followed, when an exception was caught,
    by exactly the two error records, and in that case a list is
    returned. *)
Theorem errors_are_logged_last page_url pe v :
  ∃ infos,
    Forall (λ r, lvl r = INFO) infos
    ∧ (parse_page_links_log page_url pe v = infos
       ∨ ∃ e, parse_page_links_log page_url pe v
              = infos ++ page_error_log page_url e
              ∧ parse_page_links page_url pe v ≠ None).
Proof.
  unfold _parse_page_links, _parse_page_links_log.
  destruct (parse_run_cases page_url pe v)
    as [(e & _ & ->) | [(r & _ & _ & ->) | [(r & _ & _ & _ & ->)
        | (articles & Hl)]]].
  - exists []. split; [constructor |]. right. by exists e.
  - eexists. split; [| by left]. by repeat constructor.
  - exists []. split; [constructor |]. right. by exists AttributeError.
  - destruct (for_enumerate (body pe v) 0 articles fresh) as [st r] eqn:Hloop.
    destruct (run_listing _ _ _ _ _ _ _ _ _ Hl Hloop) as [Hres Hlog].
    unfold _parse_page_links, _parse_page_links_log in Hres, Hlog.
    destruct (loop_logs_info pe v articles 0 fresh) as (new & Hnew & Hinfo).
    rewrite Hloop in Hnew. simpl in Hnew.
    exists new. split; [done |]. rewrite Hlog, Hres, Hnew.
    destruct r as [[]|e]; [left; by rewrite app_nil_r | right; by exists e].
Qed.

(** X9: of the status code only the comparison with 404 is used: two
    transports whose answers are not 404 and carry the same text give the
    same result and the same log, whatever the two status codes are. *)
Theorem other_status_codes_are_parsed
    (request' : string → option (string * string) → result Response)
    page_url pe v response response' :
  request page_url (Some (link_locator self)) = Ok response →
  request' page_url (Some (link_locator self)) = Ok response' →
  status_code response ≠ 404 →
  status_code response' ≠ 404 →
  response_text response = response_text response' →
  _parse_page_links_run request BeautifulSoup self page_url pe v
  = _parse_page_links_run request' BeautifulSoup self page_url pe v.
Proof.
  intros Hreq Hreq' Hst Hst' Htext.
  unfold _parse_page_links_run, parse_page_links_try, mbind, prog_bind, lift.
  rewrite Hreq, Hreq', Htext.
  apply Z.eqb_neq in Hst, Hst'. by rewrite Hst, Hst'.
Qed.

(** The whole of [_parse_article_text], by cases on the transport's
    answer, the two containers and [_extract_text]. *)
Lemma article_run_cases url :
  match request url None with
  | Raise e =>
      article_run url = ({| links := []; log := article_error_log url e |}, None)
  | Ok response =>
      match find "div" {[ "class" := "entry-content" ]}
                 (BeautifulSoup (response_text response)),
            find "div" {[ "class" := "entry-meta" ]}
                 (BeautifulSoup (response_text response)) with
      | Some content, Some meta =>
          match extract_text content meta with
          | Ok rec => article_run url = (fresh, Some rec)
          | Raise e =>
              article_run url
              = ({| links := []; log := article_error_log url e |}, None)
          end
      | _, _ => article_run url = (fresh, None)
      end
  end.
Proof.
  unfold _parse_article_text_run, parse_article_text_try, mbind, prog_bind, lift.
  destruct (request url None) as [response|e]; [| done].
  set (soup := BeautifulSoup (response_text response)).
  destruct (find "div" {[ "class" := "entry-content" ]} soup) as [content|];
    [| by destruct (find "div" {[ "class" := "entry-meta" ]} soup)].
  destruct (find "div" {[ "class" := "entry-meta" ]} soup) as [meta|]; [| done].
  by destruct (_extract_text fromisoformat isoformat content meta).
Qed.

(** X10: [_parse_article_text] never looks at the status code: two
    transports whose answers carry the same text give the same result and
    the same log, so the body of a 404 answer is read like any other. *)
Theorem article_status_code_is_ignored
    (request' : string → option (string * string) → result Response)
    url response response' :
  request url None = Ok response →
  request' url None = Ok response' →
  response_text response = response_text response' →
  _parse_article_text_run request BeautifulSoup fromisoformat isoformat url
  = _parse_article_text_run request' BeautifulSoup fromisoformat isoformat url.
Proof.
  intros Hreq Hreq' Htext.
  unfold _parse_article_text_run, parse_article_text_try, mbind, prog_bind, lift.
  by rewrite Hreq, Hreq', Htext.
Qed.

(** X11: a fetched article without the content container, or without the
    metadata container, gives [None] and logs nothing. *)
Theorem missing_container_is_silent url response :
  request url None = Ok response →
  find "div" {[ "class" := "entry-content" ]}
       (BeautifulSoup (response_text response)) = None
  ∨ find "div" {[ "class" := "entry-meta" ]}
         (BeautifulSoup (response_text response)) = None →
  parse_article_text url = None ∧ parse_article_text_log url = [].
Proof.
  intros Hreq Hmiss. unfold _parse_article_text, _parse_article_text_log.
  pose proof (article_run_cases url) as Hrun. rewrite Hreq in Hrun.
  destruct Hmiss as [Hc | Hm].
  - rewrite Hc in Hrun. by rewrite Hrun.
  - rewrite Hm in Hrun.
    destruct (find "div" {[ "class" := "entry-content" ]} _); by rewrite Hrun.
Qed.

(** The exception [_extract_text] raises, by what is wrong with the
    publication time. *)
Lemma extract_text_raises content meta :
  (find "time" {[ "class" := "entry-time" ]} meta = None →
   extract_text content meta = Raise TypeError)
  ∧ (∀ time_tag,
       find "time" {[ "class" := "entry-time" ]} meta = Some time_tag →
       tag_attrs time_tag !! "datetime" = None →
       extract_text content meta = Raise (KeyError "datetime"))
  ∧ (∀ time_tag entry_time_str,
       find "time" {[ "class" := "entry-time" ]} meta = Some time_tag →
       tag_attrs time_tag !! "datetime" = Some entry_time_str →
       fromisoformat entry_time_str = None →
       extract_text content meta = Raise ValueError).
Proof.
  unfold _extract_text, getitem_opt, getitem. repeat split.
  - by intros ->.
  - intros t -> Ha. by rewrite Ha.
  - intros t s -> Ha Hd. rewrite Ha. simpl. by rewrite Hd.
Qed.

(** X12: a failure of [_parse_article_text] other than a missing
    container is logged as two ERROR records, the article URL and the
    exception: the transport's own exception, [TypeError] when the
    metadata container has no publication-time element, [KeyError] for
    the key datetime when that element lacks the attribute, [ValueError]
    when the attribute does not parse.  In each case [None] is
    returned. *)
Theorem article_failure_is_logged url :
  (∀ e,
     request url None = Raise e →
     parse_article_text url = None
     ∧ parse_article_text_log url = article_error_log url e)
  ∧ (∀ response content meta,
       request url None = Ok response →
       find "div" {[ "class" := "entry-content" ]}
            (BeautifulSoup (response_text response)) = Some content →
       find "div" {[ "class" := "entry-meta" ]}
            (BeautifulSoup (response_text response)) = Some meta →
       (find "time" {[ "class" := "entry-time" ]} meta = None →
        parse_article_text url = None
        ∧ parse_article_text_log url = article_error_log url TypeError)
       ∧ (∀ time_tag,
            find "time" {[ "class" := "entry-time" ]} meta = Some time_tag →
            tag_attrs time_tag !! "datetime" = None →
            parse_article_text url = None
            ∧ parse_article_text_log url
              = article_error_log url (KeyError "datetime"))
       ∧ (∀ time_tag entry_time_str,
            find "time" {[ "class" := "entry-time" ]} meta = Some time_tag →
            tag_attrs time_tag !! "datetime" = Some entry_time_str →
            fromisoformat entry_time_str = None →
            parse_article_text url = None
            ∧ parse_article_text_log url = article_error_log url ValueError)).
Proof.
  unfold _parse_article_text, _parse_article_text_log.
  pose proof (article_run_cases url) as Hrun.
  split.
  { intros e Hreq. rewrite Hreq in Hrun. by rewrite Hrun. }
  intros response content meta Hreq Hc Hm. rewrite Hreq, Hc, Hm in Hrun.
  destruct (extract_text_raises content meta) as (H1 & H2 & H3).
  split; [| split].
  - intros Ht. rewrite (H1 Ht) in Hrun. by rewrite Hrun.
  - intros t Ht Ha. rewrite (H2 t Ht Ha) in Hrun. by rewrite Hrun.
  - intros t s Ht Ha Hd. rewrite (H3 t s Ht Ha Hd) in Hrun. by rewrite Hrun.
Qed.

(** X13: [_parse_article_text] logs nothing, or exactly the two error
    records of its handler, and then it returns [None]; so a returned
    record comes with an empty log. *)
Theorem article_log_is_empty_or_one_error url :
  parse_article_text_log url = []
  ∨ ∃ e, parse_article_text_log url = article_error_log url e
         ∧ parse_article_text url = None.
Proof.
  unfold _parse_article_text, _parse_article_text_log.
  pose proof (article_run_cases url) as Hrun.
  destruct (request url None) as [response|e].
  2: { right. exists e. by rewrite Hrun. }
  destruct (find "div" {[ "class" := "entry-content" ]} _) as [content|].
  2: { left. by rewrite Hrun. }
  destruct (find "div" {[ "class" := "entry-meta" ]} _) as [meta|].
  2: { left. by rewrite Hrun. }
  destruct (_extract_text fromisoformat isoformat content meta) as [rec|e].
  - left. by rewrite Hrun.
  - right. exists e. by rewrite Hrun.
Qed.

End Behaviour.

(** ** The further properties on sample documents *)

Module MoreSamples.

(** A row whose title cell holds an anchor without an href. *)
Definition row_no_href : node :=
  row "06 Jan 2023" [title_div [Tag "a" {[ "name" := "top" ]}
                                    [NavigableString "Placeholder"]]].

(** A metadata container whose publication-time element lacks the
    attribute, and one whose attribute does not parse. *)
Definition meta_no_datetime : node :=
  entry_meta [Tag "time" {[ "class" := "entry-time" ]}
                  [NavigableString "1 January 2023"]].

Definition meta_bad_datetime : node := entry_meta [entry_time "1 January 2023"].

End MoreSamples.

Import MoreSamples.

Lemma unusable_page_gives_empty_list_sample :
  _parse_page_links refuse (parsed_as (listing_doc [row_relative])) fetcher
    page_url 10 false = Some []
  ∧ _parse_page_links_log refuse (parsed_as (listing_doc [row_relative]))
      fetcher page_url 10 false
    = page_error_log page_url (TransportError "connection reset").
Proof.
  exact (proj1 (unusable_page_gives_empty_list refuse
                  (parsed_as (listing_doc [row_relative])) fetcher
                  page_url 10 false)
               (TransportError "connection reset") eq_refl).
Defined.

Lemma missing_href_ends_the_page_sample :
  ∃ ls earlier,
    _parse_page_links (respond 200)
      (parsed_as (listing_doc [row_relative; row_no_href; row_absolute]))
      fetcher page_url 10 false = Some ls
    ∧ Forall2 (yields fetcher) (filter (titled fetcher) [row_relative]) ls
    ∧ _parse_page_links_log (respond 200)
        (parsed_as (listing_doc [row_relative; row_no_href; row_absolute]))
        fetcher page_url 10 false
      = earlier ++ page_error_log page_url (KeyError "href").
Proof.
  destruct (missing_href_ends_the_page (respond 200)
              (parsed_as (listing_doc [row_relative; row_no_href; row_absolute]))
              fetcher page_url 10 false [row_relative] row_no_href
              (Tag "a" {[ "name" := "top" ]} [NavigableString "Placeholder"])
              [row_absolute])
    as (dn & ls & earlier & e & _ & Hres & HF & Hlog & Hcond).
  - eexists _, _. split; [reflexivity |]. split; [simpl; lia |].
    split; vm_compute; reflexivity.
  - eexists. vm_compute. reflexivity.
  - vm_compute. reflexivity.
  - vm_compute. reflexivity.
  - destruct Hcond as [-> ->].
    + left. reflexivity.
    + constructor; [| constructor]. right. eexists. eexists _, _, _.
      repeat split; vm_compute; reflexivity.
    + exists ls, earlier. split; [exact Hres |]. split; [exact HF | exact Hlog].
Defined.

Lemma verbose_only_changes_the_log_sample :
  _parse_page_links (respond 200)
    (parsed_as (listing_doc [row_relative; row_untitled; row_absolute]))
    fetcher page_url 10 false
  = _parse_page_links (respond 200)
      (parsed_as (listing_doc [row_relative; row_untitled; row_absolute]))
      fetcher page_url 3 true.
Proof.
  apply verbose_only_changes_the_log.
  - left. reflexivity.
  - right. lia.
Defined.

Lemma quiet_log_numbers_untitled_items_sample :
  _parse_page_links_log (respond 200)
    (parsed_as (listing_doc [row_relative; row_untitled; row_absolute; row_untitled]))
    fetcher page_url 10 false
  = concat (imap (λ k a, if decide (titled fetcher a) then []
                         else [no_title_record (Z.of_nat k)])
                 [row_relative; row_untitled; row_absolute; row_untitled]).
Proof.
  apply quiet_log_numbers_untitled_items.
  - eexists _, _. split; [reflexivity |]. split; [simpl; lia |].
    split; vm_compute; reflexivity.
  - repeat (apply List.Forall_cons; [| try apply List.Forall_nil]).
    + right. eexists. eexists _, _, _. repeat split; vm_compute; reflexivity.
    + left. intros [t Ht]. vm_compute in Ht. discriminate.
    + right. eexists. eexists _, _, _. repeat split; vm_compute; reflexivity.
    + left. intros [t Ht]. vm_compute in Ht. discriminate.
Defined.

Lemma never_more_records_than_titled_items_sample :
  ∃ ls,
    _parse_page_links (respond 200)
      (parsed_as (listing_doc [row_relative; row_no_anchor; row_untitled]))
      fetcher page_url 10 false = Some ls
    ∧ (length ls
       ≤ length (filter (titled fetcher)
                   [row_relative; row_no_anchor; row_untitled]))%nat
    ∧ (length ls ≤ length [row_relative; row_no_anchor; row_untitled])%nat.
Proof.
  apply (never_more_records_than_titled_items (respond 200)
           (parsed_as (listing_doc [row_relative; row_no_anchor; row_untitled]))
           fetcher page_url 10 false).
  eexists _, _. split; [reflexivity |]. split; [simpl; lia |].
  split; vm_compute; reflexivity.
Defined.

Lemma url_begins_with_base_url_sample :
  String.prefix (base_url fetcher)
    (url {| title := "Closing remarks";
            url := "https://www.bis.orghttps://www.bis.org/review/r230102b.htm" |})
  = true.
Proof.
  apply (url_begins_with_base_url (respond 200)
           (parsed_as (listing_doc [row_relative; row_absolute]))
           fetcher page_url 10 false
           [{| title := "Opening remarks";
               url := "https://www.bis.org/review/r230101a.htm" |};
            {| title := "Closing remarks";
               url := "https://www.bis.orghttps://www.bis.org/review/r230102b.htm" |}]).
  - vm_compute. reflexivity.
  - apply list_elem_of_further, list_elem_of_here.
Defined.

Lemma other_status_codes_are_parsed_sample :
  _parse_page_links_run (respond 200)
    (parsed_as (listing_doc [row_relative])) fetcher page_url 10 false
  = _parse_page_links_run (respond 500)
      (parsed_as (listing_doc [row_relative])) fetcher page_url 10 false.
Proof.
  apply (other_status_codes_are_parsed (respond 200)
           (parsed_as (listing_doc [row_relative])) fetcher (respond 500)
           page_url 10 false
           {| status_code := 200; response_text := page_url |}
           {| status_code := 500; response_text := page_url |});
    first [reflexivity | simpl; lia].
Defined.

Lemma article_status_code_is_ignored_sample :
  _parse_article_text_run (respond 200)
    (parsed_as (article_doc [content_ABA; meta_policy]))
    Samples.fromisoformat Samples.isoformat article_url
  = _parse_article_text_run (respond 404)
      (parsed_as (article_doc [content_ABA; meta_policy]))
      Samples.fromisoformat Samples.isoformat article_url.
Proof.
  apply (article_status_code_is_ignored (respond 200)
           (parsed_as (article_doc [content_ABA; meta_policy]))
           Samples.fromisoformat Samples.isoformat (respond 404) article_url
           {| status_code := 200; response_text := article_url |}
           {| status_code := 404; response_text := article_url |});
    reflexivity.
Defined.

Lemma missing_container_is_silent_sample :
  _parse_article_text (respond 200) (parsed_as (article_doc [content_ABA]))
    Samples.fromisoformat Samples.isoformat article_url = None
  ∧ _parse_article_text_log (respond 200)
      (parsed_as (article_doc [content_ABA]))
      Samples.fromisoformat Samples.isoformat article_url = [].
Proof.
  apply (missing_container_is_silent (respond 200)
           (parsed_as (article_doc [content_ABA]))
           Samples.fromisoformat Samples.isoformat article_url
           {| status_code := 200; response_text := article_url |}).
  - reflexivity.
  - right. vm_compute. reflexivity.
Defined.

Lemma article_failure_is_logged_sample :
  (_parse_article_text (respond 200)
     (parsed_as (article_doc [content_ABA; meta_no_datetime]))
     Samples.fromisoformat Samples.isoformat article_url = None
   ∧ _parse_article_text_log (respond 200)
       (parsed_as (article_doc [content_ABA; meta_no_datetime]))
       Samples.fromisoformat Samples.isoformat article_url
     = article_error_log article_url (KeyError "datetime"))
  ∧ (_parse_article_text (respond 200)
       (parsed_as (article_doc [content_ABA; meta_bad_datetime]))
       Samples.fromisoformat Samples.isoformat article_url = None
     ∧ _parse_article_text_log (respond 200)
         (parsed_as (article_doc [content_ABA; meta_bad_datetime]))
         Samples.fromisoformat Samples.isoformat article_url
       = article_error_log article_url ValueError).
Proof.
  split.
  - destruct (article_failure_is_logged (respond 200)
                (parsed_as (article_doc [content_ABA; meta_no_datetime]))
                Samples.fromisoformat Samples.isoformat article_url) as [_ H].
    destruct (H {| status_code := 200; response_text := article_url |}
                content_ABA meta_no_datetime eq_refl)
      as (_ & Hkey & _); [vm_compute; reflexivity | vm_compute; reflexivity |].
    eapply Hkey; vm_compute; reflexivity.
  - destruct (article_failure_is_logged (respond 200)
                (parsed_as (article_doc [content_ABA; meta_bad_datetime]))
                Samples.fromisoformat Samples.isoformat article_url) as [_ H].
    destruct (H {| status_code := 200; response_text := article_url |}
                content_ABA meta_bad_datetime eq_refl)
      as (_ & _ & Hval); [vm_compute; reflexivity | vm_compute; reflexivity |].
    eapply Hval; vm_compute; reflexivity.
Defined.
